(** * Kernel frontend classes of [IPython/zmq/kernelmanager.py]

    A shallow embedding of the channel threads ([ZmqSocketChannel],
    [SubSocketChannel], [XReqSocketChannel], [RepSocketChannel]) and of the
    [KernelManager], followed by the properties the specification states
    about them.

    Python objects are records, attributes that are [None] until [run]
    assigns them are options, and a method is a function from the object's
    state to an outcome together with the state the call leaves behind: a
    Python exception keeps every mutation made before it was raised. *)

From Stdlib Require Import ZArith Lia.
From stdpp Require Import base strings gmap list.

Local Open Scope Z_scope.

(** ** Python values, exceptions and outcomes *)

Inductive pyval :=
| PyNone
| PyStr (s : string)
| PyInt (n : Z).

#[global] Instance pyval_eq_dec : EqDecision pyval.
Proof. solve_decision. Defined.

(** The exceptions the module raises or lets through. [ZMQError None] is
    [zmq.ZMQError()] built without an errno. *)
Inductive Exception :=
| RuntimeError (msg : string)
| NotImplementedError (msg : string)
| ZMQError (errno : option Z)
| AttributeError (attr : string)
| TypeError (what : string)
| OtherError (what : string).

#[global] Instance Exception_eq_dec : EqDecision Exception.
Proof. solve_decision. Defined.

(** A call returns, raises, or never comes back (a blocking receive on a
    socket nothing arrives on). *)
Inductive Outcome (A : Type) :=
| Return (a : A)
| Raise (e : Exception)
| Blocked.
Arguments Return {A} a.
Arguments Raise {A} e.
Arguments Blocked {A}.

(** Methods: the state is threaded through, also past a raise. *)
Definition M (S A : Type) : Type := S -> Outcome A * S.

Definition ret {S A} (a : A) : M S A := fun s => (Return a, s).
Definition raise {S A} (e : Exception) : M S A := fun s => (Raise e, s).
Definition bind {S A B} (c : M S A) (k : A -> M S B) : M S B :=
  fun s =>
    match c s with
    | (Return a, s') => k a s'
    | (Raise e, s') => (Raise e, s')
    | (Blocked, s') => (Blocked, s')
    end.
Definition get {S} : M S S := fun s => (Return s, s).
Definition modify {S} (f : S -> S) : M S unit := fun s => (Return tt, f s).

Notation "'let!' x ':=' c 'in' k" := (bind c (fun x => k))
  (at level 10, x pattern, c at level 100, k at level 200).
Notation "c ';;;' k" := (bind c (fun _ => k))
  (at level 100, k at level 200, right associativity).

(** ** Constants *)

Definition LOCALHOST : string := "127.0.0.1".

(** [zmq.POLLIN], [zmq.POLLOUT], [zmq.POLLERR] as libzmq defines them. *)
Definition POLLIN : Z := 1.
Definition POLLOUT : Z := 2.
Definition POLLERR : Z := 4.

(** [zmq.EAGAIN]: what a non-blocking receive raises on an empty socket. *)
Definition EAGAIN : Z := 11.

(** Python truth of an integer. *)
Definition truthy (n : Z) : bool := negb (n =? 0).

(** ** Messages *)

(** Modelled from the spec: the envelope the session component builds, a
    header with the unique id and the message type, plus the content body
    (the [session] module itself is not part of the sources). *)
Record Header := { msg_id : pyval; msg_type : string }.
Record Envelope := { header : Header; content : gmap string pyval }.

(** ** The event loop and the socket, as far as the channels use them *)

(** The closures a channel posts with [IOLoop.add_callback]. *)
Inductive Callback :=
| add_io_state_callback (state : Z)
| drop_io_state_callback (state : Z).

(** [loop_callbacks] are the posted callbacks still to run, oldest first;
    [handler_events] is the mask the socket is registered with and
    [handler_updates] lists the masks of every [update_handler] call. *)
Record IOLoop := {
  loop_callbacks : list Callback;
  handler_events : Z;
  handler_updates : list Z;
  loop_stopped : bool
}.

(** [pending] is what successive receives produce, each a decoded message or
    the exception the receive raises; [wire] is what [send_json] has
    transmitted, oldest first. *)
Record Socket := {
  pending : list (Envelope + Exception);
  wire : list Envelope
}.

(** The [Thread] a channel is: created, started and running, terminated. *)
Inductive ThreadState := Initial | Alive | Finished.

#[global] Instance ThreadState_eq_dec : EqDecision ThreadState.
Proof. solve_decision. Defined.

Definition Address : Type := string * Z.

(** ** [ZmqSocketChannel] *)

Record ZmqSocketChannel := {
  thread : ThreadState;
  _address : Address;
  socket : option Socket;
  ioloop : option IOLoop;
  iostate : option Z
}.

Definition with_thread (t : ThreadState) (c : ZmqSocketChannel) :=
  {| thread := t; _address := _address c; socket := socket c;
     ioloop := ioloop c; iostate := iostate c |}.
Definition with_address (a : Address) (c : ZmqSocketChannel) :=
  {| thread := thread c; _address := a; socket := socket c;
     ioloop := ioloop c; iostate := iostate c |}.
Definition with_socket (s : option Socket) (c : ZmqSocketChannel) :=
  {| thread := thread c; _address := _address c; socket := s;
     ioloop := ioloop c; iostate := iostate c |}.
Definition with_ioloop (l : option IOLoop) (c : ZmqSocketChannel) :=
  {| thread := thread c; _address := _address c; socket := socket c;
     ioloop := l; iostate := iostate c |}.
Definition with_iostate (i : option Z) (c : ZmqSocketChannel) :=
  {| thread := thread c; _address := _address c; socket := socket c;
     ioloop := ioloop c; iostate := i |}.

Module Thread.
(** [threading.Thread]: a thread starts once, and only a started thread
    can be joined. [join] returns when the thread has terminated: the
    thread of a channel whose [run] entered an event loop terminates once
    that loop has been told to stop, the thread of a channel whose [run]
    has no loop terminates by itself. *)
Definition is_alive (c : ZmqSocketChannel) : bool :=
  match thread c with Alive => true | _ => false end.

Definition started (c : ZmqSocketChannel) : bool :=
  match thread c with Initial => false | _ => true end.

Definition start : M ZmqSocketChannel unit := fun c =>
  match thread c with
  | Initial => (Return tt, with_thread Alive c)
  | _ => (Raise (RuntimeError "threads can only be started once"), c)
  end.

Definition join : M ZmqSocketChannel unit := fun c =>
  match thread c with
  | Initial =>
      (Raise (RuntimeError "cannot join thread before it is started"), c)
  | Finished => (Return tt, c)
  | Alive =>
      match ioloop c with
      | Some l =>
          if loop_stopped l then (Return tt, with_thread Finished c)
          else (Blocked, c)
      | None => (Return tt, with_thread Finished c)
      end
  end.
End Thread.

Module IOLoopOps.
(** [self.ioloop.<method>] on a channel whose [ioloop] is still [None]
    raises [AttributeError]. *)
Definition on_ioloop (attr : string) (f : IOLoop -> IOLoop)
  : M ZmqSocketChannel unit := fun c =>
  match ioloop c with
  | Some l => (Return tt, with_ioloop (Some (f l)) c)
  | None => (Raise (AttributeError attr), c)
  end.

Definition add_callback (cb : Callback) : M ZmqSocketChannel unit :=
  on_ioloop "add_callback" (fun l =>
    {| loop_callbacks := loop_callbacks l ++ [cb];
       handler_events := handler_events l;
       handler_updates := handler_updates l;
       loop_stopped := loop_stopped l |}).

Definition update_handler (events : Z) : M ZmqSocketChannel unit :=
  on_ioloop "update_handler" (fun l =>
    {| loop_callbacks := loop_callbacks l;
       handler_events := events;
       handler_updates := handler_updates l ++ [events];
       loop_stopped := loop_stopped l |}).

Definition stop : M ZmqSocketChannel unit :=
  on_ioloop "stop" (fun l =>
    {| loop_callbacks := loop_callbacks l;
       handler_events := handler_events l;
       handler_updates := handler_updates l;
       loop_stopped := true |}).
End IOLoopOps.

Module Channel.
(** [ZmqSocketChannel.stop]: join the thread. *)
Definition stop : M ZmqSocketChannel unit := Thread.join.

Definition get_address (c : ZmqSocketChannel) : Address := _address c.

(** [set_adresss]: refused on a live thread; [None] resets the address to
    its default. *)
Definition set_adresss (address : option Address)
  : M ZmqSocketChannel unit := fun c =>
  if Thread.is_alive c then
    (Raise (RuntimeError "Cannot set address on a running channel!"), c)
  else
    let address :=
      match address with
      | None => (LOCALHOST, 0)
      | Some a => a
      end in
    (Return tt, with_address address c).

(** The getter returns the very value the setter was given. *)
Definition returns_value_set (address : option Address)
  (c : ZmqSocketChannel) : Prop :=
  Some (get_address c) = address.

(** [__init__]: a thread that has not started, whose address goes through
    the setter. *)
Definition init (address : option Address)
  : Outcome unit * ZmqSocketChannel :=
  set_adresss address
    {| thread := Initial; _address := (LOCALHOST, 0); socket := None;
       ioloop := None; iostate := None |}.

(** The body of the callback [add_io_state] posts. [self.iostate & state]
    on an [iostate] that is still [None] is a [TypeError]. *)
Definition run_add_io_state_callback (state : Z)
  : M ZmqSocketChannel unit := fun c =>
  match iostate c with
  | None => (Raise (TypeError "unsupported operand type(s) for &"), c)
  | Some i =>
      if negb (truthy (Z.land i state)) then
        (modify (with_iostate (Some (Z.lor i state))) ;;;
         IOLoopOps.update_handler (Z.lor i state)) c
      else (Return tt, c)
  end.

(** The body of the callback [drop_io_state] posts. *)
Definition run_drop_io_state_callback (state : Z)
  : M ZmqSocketChannel unit := fun c =>
  match iostate c with
  | None => (Raise (TypeError "unsupported operand type(s) for &"), c)
  | Some i =>
      if truthy (Z.land i state) then
        (modify (with_iostate (Some (Z.land i (Z.lnot state)))) ;;;
         IOLoopOps.update_handler (Z.land i (Z.lnot state))) c
      else (Return tt, c)
  end.

Definition add_io_state (state : Z) : M ZmqSocketChannel unit :=
  IOLoopOps.add_callback (add_io_state_callback state).

Definition drop_io_state (state : Z) : M ZmqSocketChannel unit :=
  IOLoopOps.add_callback (drop_io_state_callback state).
End Channel.

(** Running one method on a part of a larger state. *)
Definition zoom {S T A} (proj : S -> T) (inj : T -> S -> S) (c : M T A)
  : M S A :=
  fun s => let '(o, t) := c (proj s) in (o, inj t s).

Module Loop.
(** What [run] sets up on the channel's own thread before it enters
    [ioloop.start()]: the socket, a private loop, the initial interest,
    and the registration of [_handle_events] with that interest. *)
Definition setup (interest : Z) (c : ZmqSocketChannel) : ZmqSocketChannel :=
  {| thread := thread c; _address := _address c;
     socket := Some {| pending := []; wire := [] |};
     ioloop := Some {| loop_callbacks := []; handler_events := interest;
                       handler_updates := []; loop_stopped := false |};
     iostate := Some interest |}.

(** The loop runs the oldest posted callback. *)
Definition run_callback (cb : Callback) : M ZmqSocketChannel unit :=
  match cb with
  | add_io_state_callback state => Channel.run_add_io_state_callback state
  | drop_io_state_callback state => Channel.run_drop_io_state_callback state
  end.

Definition run_next_callback : M ZmqSocketChannel unit := fun c =>
  match ioloop c with
  | Some l =>
      match loop_callbacks l with
      | cb :: rest =>
          run_callback cb
            (with_ioloop
               (Some {| loop_callbacks := rest;
                        handler_events := handler_events l;
                        handler_updates := handler_updates l;
                        loop_stopped := loop_stopped l |}) c)
      | [] => (Return tt, c)
      end
  | None => (Return tt, c)
  end.
End Loop.

(** [stop] of the two socket channels: stop the loop, then the base class's
    [stop]. *)
Definition socket_channel_stop : M ZmqSocketChannel unit :=
  IOLoopOps.stop ;;; Channel.stop.

(** [self.socket.<method>] on a channel whose [socket] is still [None]. *)
Definition on_socket {A} (attr : string) (f : Socket -> Outcome A * Socket)
  : M ZmqSocketChannel A := fun c =>
  match socket c with
  | Some s => let '(o, s') := f s in (o, with_socket (Some s') c)
  | None => (Raise (AttributeError attr), c)
  end.

(** [socket.recv_json(zmq.NOBLOCK)]: nothing to receive is a [ZMQError]. *)
Definition recv_json_noblock : M ZmqSocketChannel Envelope :=
  on_socket "recv_json" (fun s =>
    match pending s with
    | [] => (Raise (ZMQError (Some EAGAIN)), s)
    | inl msg :: rest => (Return msg, {| pending := rest; wire := wire s |})
    | inr e :: rest => (Raise e, {| pending := rest; wire := wire s |})
    end).

(** [socket.recv_json()]: waits for a message. *)
Definition recv_json : M ZmqSocketChannel Envelope :=
  on_socket "recv_json" (fun s =>
    match pending s with
    | [] => (Blocked, s)
    | inl msg :: rest => (Return msg, {| pending := rest; wire := wire s |})
    | inr e :: rest => (Raise e, {| pending := rest; wire := wire s |})
    end).

Definition send_json (msg : Envelope) : M ZmqSocketChannel unit :=
  on_socket "send_json" (fun s =>
    (Return tt, {| pending := pending s; wire := wire s ++ [msg] |})).

(** [_handle_err] of both socket channels. *)
Definition _handle_err {S} : M S unit := raise (ZMQError None).

(** [call_handlers] as the channel classes define it themselves. *)
Definition call_handlers_undefined {S} (msg : Envelope) : M S unit :=
  raise (NotImplementedError "call_handlers must be defined in a subclass.").

(** ** [SubSocketChannel] *)

Module Sub.
Section WithHandlers.
(** The subclass's [call_handlers], acting on a state of its own. *)
Variable H : Type.
Variable call_handlers : Envelope -> M H unit.

(** [dispatched] lists the messages [call_handlers] was invoked on. *)
Record SubSocketChannel := {
  base : ZmqSocketChannel;
  handlers : H;
  dispatched : list Envelope
}.

Definition on_base {A} : M ZmqSocketChannel A -> M SubSocketChannel A :=
  zoom base (fun b s =>
    {| base := b; handlers := handlers s; dispatched := dispatched s |}).

Definition invoke_call_handlers (msg : Envelope) : M SubSocketChannel unit :=
  modify (fun s =>
    {| base := base s; handlers := handlers s;
       dispatched := dispatched s ++ [msg] |}) ;;;
  zoom handlers (fun h s =>
    {| base := base s; handlers := h; dispatched := dispatched s |})
    (call_handlers msg).

Definition run (s : SubSocketChannel) : SubSocketChannel :=
  {| base := Loop.setup (Z.lor POLLIN POLLERR) (base s);
     handlers := handlers s; dispatched := dispatched s |}.

Definition stop : M SubSocketChannel unit := on_base socket_channel_stop.

(** The [while True] loop of [_handle_recv]. Every round takes one entry
    off the socket, so [fuel] rounds are enough as soon as [fuel] exceeds
    the number of entries; [_handle_recv] starts it with that much, and the
    case of no fuel left is never met ([recv_loop_enough]). *)
Fixpoint recv_loop (fuel : nat) : M SubSocketChannel unit :=
  match fuel with
  | O => fun s => (Blocked, s)
  | S fuel' => fun s =>
      match on_base recv_json_noblock s with
      | (Return msg, s') =>
          (invoke_call_handlers msg ;;; recv_loop fuel') s'
      | (Raise (ZMQError _), s') => (Return tt, s')
      | (Raise e, s') => (Raise e, s')
      | (Blocked, s') => (Blocked, s')
      end
  end.

Definition available (s : SubSocketChannel) : list (Envelope + Exception) :=
  match socket (base s) with
  | Some sock => pending sock
  | None => []
  end.

Definition _handle_recv : M SubSocketChannel unit := fun s =>
  recv_loop (S (length (available s))) s.

Definition _handle_events (events : Z) : M SubSocketChannel unit :=
  (if truthy (Z.land events POLLERR) then _handle_err else ret tt) ;;;
  (if truthy (Z.land events POLLIN) then _handle_recv else ret tt).

(** The handler state after [call_handlers] has been invoked on each of
    [msgs] in turn, and whether each of these invocations returns. *)
Fixpoint handled (msgs : list Envelope) (h : H) : H :=
  match msgs with
  | [] => h
  | msg :: rest => handled rest (snd (call_handlers msg h))
  end.

Fixpoint all_return (msgs : list Envelope) (h : H) : Prop :=
  match msgs with
  | [] => True
  | msg :: rest =>
      fst (call_handlers msg h) = Return tt
      /\ all_return rest (snd (call_handlers msg h))
  end.
End WithHandlers.
Arguments base {H} _.
Arguments handlers {H} _.
Arguments dispatched {H} _.
End Sub.

(** ** The session component *)

(** The session object is shared by the manager and its channels; its
    state and its id generator [new_id] are parameters. *)
Section Session.
Variable Sess : Type.
Variable new_id : Sess -> pyval * Sess.

(** Modelled from the spec: [Session.msg], which is not part of the
    sources, builds an envelope of the given type and content around a
    header with a freshly generated id. *)
Definition session_msg (type : string) (body : gmap string pyval)
  : M Sess Envelope := fun s =>
  let '(i, s') := new_id s in
  (Return {| header := {| msg_id := i; msg_type := type |};
             content := body |}, s').

(** The ids of the next [n] envelopes a session builds. *)
Fixpoint upcoming_ids (n : nat) (s : Sess) : list pyval :=
  match n with
  | O => []
  | S n' => let '(i, s') := new_id s in i :: upcoming_ids n' s'
  end.

(** A session generates fresh ids when no run of consecutive ids repeats
    one. *)
Definition generates_fresh_ids : Prop :=
  forall n s, NoDup (upcoming_ids n s).
End Session.

(** A session in the style of a counter: the n-th envelope gets id n. *)
Definition counter_new_id (n : Z) : pyval * Z := (PyInt n, n + 1).

(** ** [XReqSocketChannel] *)

Module XReq.
Section WithCollaborators.
Variable Sess : Type.
Variable new_id : Sess -> pyval * Sess.
Variable H : Type.
Variable call_handlers : Envelope -> M H unit.

(** [command_queue] is the [Queue]: [put] appends, [get] takes the head.
    [session] is the session object the channel was built with. *)
Record XReqSocketChannel := {
  base : ZmqSocketChannel;
  command_queue : list Envelope;
  session : Sess;
  handlers : H;
  dispatched : list Envelope
}.

Definition with_base (b : ZmqSocketChannel) (s : XReqSocketChannel) :=
  {| base := b; command_queue := command_queue s; session := session s;
     handlers := handlers s; dispatched := dispatched s |}.
Definition with_command_queue (q : list Envelope) (s : XReqSocketChannel) :=
  {| base := base s; command_queue := q; session := session s;
     handlers := handlers s; dispatched := dispatched s |}.
Definition with_session (x : Sess) (s : XReqSocketChannel) :=
  {| base := base s; command_queue := command_queue s; session := x;
     handlers := handlers s; dispatched := dispatched s |}.
Definition with_handlers (h : H) (s : XReqSocketChannel) :=
  {| base := base s; command_queue := command_queue s; session := session s;
     handlers := h; dispatched := dispatched s |}.
Definition with_dispatched (d : list Envelope) (s : XReqSocketChannel) :=
  {| base := base s; command_queue := command_queue s; session := session s;
     handlers := handlers s; dispatched := d |}.

Definition on_base {A} : M ZmqSocketChannel A -> M XReqSocketChannel A :=
  zoom base with_base.
Definition on_session {A} : M Sess A -> M XReqSocketChannel A :=
  zoom session with_session.

Definition invoke_call_handlers (msg : Envelope)
  : M XReqSocketChannel unit :=
  modify (fun s => with_dispatched (dispatched s ++ [msg]) s) ;;;
  zoom handlers with_handlers (call_handlers msg).

Definition run (s : XReqSocketChannel) : XReqSocketChannel :=
  with_base (Loop.setup (Z.lor POLLERR POLLIN) (base s)) s.

Definition stop : M XReqSocketChannel unit := on_base socket_channel_stop.

Definition _handle_recv : M XReqSocketChannel unit :=
  let! msg := on_base recv_json in
  invoke_call_handlers msg.

(** [_handle_send]: [command_queue.get(False)] raises [Empty] on an empty
    queue, which is passed over. *)
Definition _handle_send : M XReqSocketChannel unit :=
  (fun s =>
     match command_queue s with
     | [] => (Return tt, s)
     | msg :: rest =>
         on_base (send_json msg) (with_command_queue rest s)
     end) ;;;
  let! s := get in
  match command_queue s with
  | [] => on_base (Channel.drop_io_state POLLOUT)
  | _ :: _ => ret tt
  end.

Definition _handle_events (events : Z) : M XReqSocketChannel unit :=
  (if truthy (Z.land events POLLERR) then _handle_err else ret tt) ;;;
  (if truthy (Z.land events POLLOUT) then _handle_send else ret tt) ;;;
  (if truthy (Z.land events POLLIN) then _handle_recv else ret tt).

Definition _queue_request (msg : Envelope) (callback : pyval)
  : M XReqSocketChannel unit :=
  modify (fun s => with_command_queue (command_queue s ++ [msg]) s) ;;;
  on_base (Channel.add_io_state POLLOUT).

Definition execute (code : pyval) (callback : pyval)
  : M XReqSocketChannel pyval :=
  let body : gmap string pyval := {[ "code" := code ]} in
  let! msg := on_session (session_msg Sess new_id "execute_request" body) in
  _queue_request msg callback ;;;
  ret (msg_id (header msg)).

Definition complete (text line block : pyval) (callback : pyval)
  : M XReqSocketChannel pyval :=
  let body : gmap string pyval := <[ "text" := text ]> {[ "line" := line ]} in
  let! msg := on_session (session_msg Sess new_id "complete_request" body) in
  _queue_request msg callback ;;;
  ret (msg_id (header msg)).

Definition object_info (oname : pyval) (callback : pyval)
  : M XReqSocketChannel pyval :=
  let body : gmap string pyval := {[ "oname" := oname ]} in
  let! msg :=
    on_session (session_msg Sess new_id "object_info_request" body) in
  _queue_request msg callback ;;;
  ret (msg_id (header msg)).

(** *** A request channel at work

    The owning thread makes requests; the channel thread has its loop
    report readiness and run posted callbacks; replies arrive on the
    socket; and the session, which the channel shares with the manager
    and the other channels, builds messages for them as well. *)
Inductive Request :=
| Execute (code callback : pyval)
| Complete (text line block callback : pyval)
| ObjectInfo (oname callback : pyval).

Definition request (r : Request) : M XReqSocketChannel pyval :=
  match r with
  | Execute code callback => execute code callback
  | Complete text line block callback => complete text line block callback
  | ObjectInfo oname callback => object_info oname callback
  end.

Inductive Event :=
| requested (r : Request)
| ready (events : Z)
| callback_due
| arrives (entry : Envelope + Exception)
| session_used (type : string) (body : gmap string pyval).

Definition deliver (entry : Envelope + Exception) (c : ZmqSocketChannel)
  : ZmqSocketChannel :=
  match socket c with
  | Some s =>
      with_socket
        (Some {| pending := pending s ++ [entry]; wire := wire s |}) c
  | None => c
  end.

(** One event: the state it leaves, and the id a request returned. *)
Definition occur (e : Event) (s : XReqSocketChannel)
  : XReqSocketChannel * list pyval :=
  match e with
  | requested r =>
      match request r s with
      | (Return i, s') => (s', [i])
      | (_, s') => (s', [])
      end
  | ready events => (snd (_handle_events events s), [])
  | callback_due => (snd (on_base Loop.run_next_callback s), [])
  | arrives entry => (with_base (deliver entry (base s)) s, [])
  | session_used type body =>
      (snd (on_session (session_msg Sess new_id type body) s), [])
  end.

(** A history of events: the final state and the ids returned, in the
    order of the requests. *)
Fixpoint play (es : list Event) (s : XReqSocketChannel)
  : XReqSocketChannel * list pyval :=
  match es with
  | [] => (s, [])
  | e :: es' =>
      let '(s1, ids1) := occur e s in
      let '(s2, ids2) := play es' s1 in
      (s2, ids1 ++ ids2)
  end.

(** The content body of each kind of request. *)
Definition body_of (r : Request) : gmap string pyval :=
  match r with
  | Execute code _ => {[ "code" := code ]}
  | Complete text line _ _ => <[ "text" := text ]> {[ "line" := line ]}
  | ObjectInfo oname _ => {[ "oname" := oname ]}
  end.

Definition type_of (r : Request) : string :=
  match r with
  | Execute _ _ => "execute_request"
  | Complete _ _ _ _ => "complete_request"
  | ObjectInfo _ _ => "object_info_request"
  end.

(** The envelopes the session builds for the requests of a history, in
    the order of the requests. *)
Fixpoint envelopes (es : list Event) (x : Sess) : list Envelope :=
  match es with
  | [] => []
  | requested r :: es' =>
      let '(i, x') := new_id x in
      {| header := {| msg_id := i; msg_type := type_of r |};
         content := body_of r |} :: envelopes es' x'
  | session_used _ _ :: es' => envelopes es' (snd (new_id x))
  | _ :: es' => envelopes es' x
  end.

(** How often a history has the session build a message. *)
Fixpoint session_uses (es : list Event) : nat :=
  match es with
  | [] => O
  | requested _ :: es' => S (session_uses es')
  | session_used _ _ :: es' => S (session_uses es')
  | _ :: es' => session_uses es'
  end.

Definition transmitted (s : XReqSocketChannel) : list Envelope :=
  match socket (base s) with
  | Some sock => wire sock
  | None => []
  end.

Definition posted (s : XReqSocketChannel) : list Callback :=
  match ioloop (base s) with
  | Some l => loop_callbacks l
  | None => []
  end.

(** The channel thread has executed [run]. *)
Definition running (s : XReqSocketChannel) : Prop :=
  is_Some (socket (base s)) /\ is_Some (ioloop (base s))
  /\ is_Some (iostate (base s)).

(** The channel after the owning thread has made the requests [rs], after
    the loop has run every callback that waits, and after as many events
    reporting writable readiness as envelopes wait. *)
Definition after_requests (rs : list Request) (s : XReqSocketChannel)
  : XReqSocketChannel :=
  fst (play (map requested rs) s).

Definition after_callbacks (s : XReqSocketChannel) : XReqSocketChannel :=
  fst (play (replicate (length (posted s)) callback_due) s).

Definition after_writable (s : XReqSocketChannel) : XReqSocketChannel :=
  fst (play (replicate (length (command_queue s)) (ready POLLOUT)) s).

(** A step of the channel thread that neither sends nor queues. *)
Definition undisturbed (s s' : XReqSocketChannel) : Prop :=
  transmitted s' = transmitted s
  /\ command_queue s' = command_queue s
  /\ session s' = session s
  /\ (running s -> running s').
End WithCollaborators.
Arguments base {Sess H} _.
Arguments command_queue {Sess H} _.
Arguments session {Sess H} _.
Arguments handlers {Sess H} _.
Arguments dispatched {Sess H} _.
End XReq.

(** ** [KernelManager] *)

Inductive ChannelClass := SubClass | XReqClass | RepClass.

#[global] Instance ChannelClass_eq_dec : EqDecision ChannelClass.
Proof. solve_decision. Defined.

(** A [subprocess.Popen] handle. *)
Record Popen := { pid : Z }.

(** What the manager does to the world outside its own attributes, in the
    order it does it. *)
Inductive Effect :=
| launched (xrep_port pub_port : Z)
| killed (kernel : Popen)
| signalled (kernel : Popen) (signum : Z)
| thread_started (k : ChannelClass)
| channel_stopped (k : ChannelClass).

(** The manager with its three channel objects. Of a channel the manager
    uses the thread, the loop and the address, that is its
    [ZmqSocketChannel] part; the class of the channel decides what [run] and
    [stop] do. [effects] is the record of the effects so far. *)
Record KernelManager := {
  is_listening : bool;
  _kernel : option Popen;
  _sub_channel : option ZmqSocketChannel;
  _xreq_channel : option ZmqSocketChannel;
  _rep_channel : option ZmqSocketChannel;
  effects : list Effect
}.

Module KM.
Section WithLauncher.
(** [kernel.launch_kernel], which is not part of the sources: given the
    requested ports it returns the process and the two ports bound. *)
Variable launch_kernel : Z -> Z -> Popen * Z * Z.

Definition with_is_listening (b : bool) (m : KernelManager) :=
  {| is_listening := b; _kernel := _kernel m;
     _sub_channel := _sub_channel m; _xreq_channel := _xreq_channel m;
     _rep_channel := _rep_channel m; effects := effects m |}.
Definition with_kernel (k : option Popen) (m : KernelManager) :=
  {| is_listening := is_listening m; _kernel := k;
     _sub_channel := _sub_channel m; _xreq_channel := _xreq_channel m;
     _rep_channel := _rep_channel m; effects := effects m |}.
Definition with_effects (l : list Effect) (m : KernelManager) :=
  {| is_listening := is_listening m; _kernel := _kernel m;
     _sub_channel := _sub_channel m; _xreq_channel := _xreq_channel m;
     _rep_channel := _rep_channel m; effects := l |}.

Definition channel_of (k : ChannelClass) (m : KernelManager)
  : option ZmqSocketChannel :=
  match k with
  | SubClass => _sub_channel m
  | XReqClass => _xreq_channel m
  | RepClass => _rep_channel m
  end.

Definition with_channel (k : ChannelClass) (c : option ZmqSocketChannel)
  (m : KernelManager) :=
  match k with
  | SubClass =>
      {| is_listening := is_listening m; _kernel := _kernel m;
         _sub_channel := c; _xreq_channel := _xreq_channel m;
         _rep_channel := _rep_channel m; effects := effects m |}
  | XReqClass =>
      {| is_listening := is_listening m; _kernel := _kernel m;
         _sub_channel := _sub_channel m; _xreq_channel := c;
         _rep_channel := _rep_channel m; effects := effects m |}
  | RepClass =>
      {| is_listening := is_listening m; _kernel := _kernel m;
         _sub_channel := _sub_channel m; _xreq_channel := _xreq_channel m;
         _rep_channel := c; effects := effects m |}
  end.

Definition perform (e : Effect) : M KernelManager unit :=
  modify (fun m => with_effects (effects m ++ [e]) m).

(** A manager nothing has been done with. *)
Definition fresh : KernelManager :=
  {| is_listening := false; _kernel := None; _sub_channel := None;
     _xreq_channel := None; _rep_channel := None; effects := [] |}.

(** [<class>(self.context, self.session)]: the address defaults to
    [None]. *)
Definition new_channel : ZmqSocketChannel := snd (Channel.init None).

(** The properties [sub_channel], [xreq_channel], [rep_channel]: the
    channel object, constructed on first access. *)
Definition channel (k : ChannelClass) : M KernelManager ZmqSocketChannel :=
  fun m =>
    match channel_of k m with
    | Some c => (Return c, m)
    | None => (Return new_channel, with_channel k (Some new_channel) m)
    end.
Definition sub_channel := channel SubClass.
Definition xreq_channel := channel XReqClass.
Definition rep_channel := channel RepClass.

(** A method call on [self.<k>_channel]. *)
Definition on_channel {A} (k : ChannelClass) (c : M ZmqSocketChannel A)
  : M KernelManager A :=
  let! ch := channel k in
  fun m => let '(o, ch') := c ch in (o, with_channel k (Some ch') m).

(** [run] of each class, as far as it sets the channel up: the two socket
    channels create socket and loop and register for reading and errors,
    [RepSocketChannel] inherits the [run] of [Thread], which has nothing
    to do. *)
Definition run (k : ChannelClass) (c : ZmqSocketChannel) : ZmqSocketChannel :=
  match k with
  | SubClass => Loop.setup (Z.lor POLLIN POLLERR) c
  | XReqClass => Loop.setup (Z.lor POLLERR POLLIN) c
  | RepClass => c
  end.

(** [start()]: the thread starts, and [start] returns. The new thread
    executes [run] on its own, later ([thread_runs] below): until then the
    socket, the loop and the interest of the channel are still [None]. *)
Definition start (k : ChannelClass) : M ZmqSocketChannel unit :=
  Thread.start.

Definition stop (k : ChannelClass) : M ZmqSocketChannel unit :=
  match k with
  | SubClass => socket_channel_stop
  | XReqClass => socket_channel_stop
  | RepClass => Channel.stop
  end.

Definition start_channel (k : ChannelClass) : M KernelManager unit :=
  on_channel k (start k) ;;; perform (thread_started k).

Definition stop_channel (k : ChannelClass) : M KernelManager unit :=
  on_channel k (stop k) ;;; perform (channel_stopped k).

Definition start_listening : M KernelManager unit :=
  let! m := get in
  if is_listening m then
    raise (RuntimeError "Cannot start listening. Already listening!")
  else
    modify (with_is_listening true) ;;;
    start_channel SubClass ;;;
    start_channel XReqClass ;;;
    start_channel RepClass.

Definition is_alive (m : KernelManager) : bool :=
  if is_listening m then true else false.

Definition stop_listening : M KernelManager unit :=
  let! m := get in
  if is_listening m then
    modify (with_is_listening false) ;;;
    stop_channel SubClass ;;;
    stop_channel XReqClass ;;;
    stop_channel RepClass
  else ret tt.

(** The delegates for the address attributes. *)
Definition get_address (k : ChannelClass) : M KernelManager Address :=
  on_channel k (fun c => (Return (Channel.get_address c), c)).
Definition set_address (k : ChannelClass) (a : option Address)
  : M KernelManager unit :=
  on_channel k (Channel.set_adresss a).

Definition get_sub_address := get_address SubClass.
Definition set_sub_address := set_address SubClass.
Definition get_xreq_address := get_address XReqClass.
Definition set_xreq_address := set_address XReqClass.
Definition get_rep_address := get_address RepClass.
Definition set_rep_address := set_address RepClass.

Definition set_kernel (kernel : option Popen) : M KernelManager unit :=
  modify (with_kernel kernel).

Definition has_kernel (m : KernelManager) : bool :=
  match _kernel m with Some _ => true | None => false end.

Definition start_kernel : M KernelManager unit :=
  let! xreq := get_xreq_address in
  let! sub := get_sub_address in
  if negb (String.eqb (fst xreq) LOCALHOST)
     || negb (String.eqb (fst sub) LOCALHOST) then
    raise (RuntimeError
      "Can only launch a kernel on localhost.Make sure that the '*_address' attributes are configured properly.")
  else
    let '(kernel, xrep, pub) := launch_kernel (snd xreq) (snd sub) in
    perform (launched (snd xreq) (snd sub)) ;;;
    set_kernel (Some kernel) ;;;
    set_xreq_address (Some (LOCALHOST, xrep)) ;;;
    set_sub_address (Some (LOCALHOST, pub)).

Definition kill_kernel : M KernelManager unit :=
  let! m := get in
  match _kernel m with
  | Some kernel =>
      perform (killed kernel) ;;;
      modify (with_kernel None)
  | None => raise (RuntimeError "Cannot kill kernel. No kernel is running!")
  end.

Definition signal_kernel (signum : Z) : M KernelManager unit :=
  let! m := get in
  match _kernel m with
  | Some kernel => perform (signalled kernel signum)
  | None =>
      raise (RuntimeError "Cannot signal kernel. No kernel is running!")
  end.

(** What an observer sees of a channel without touching the manager: the
    address its getter returns and the state of its thread. A channel not
    constructed yet would be constructed with the default address and a
    thread that has not started. *)
Definition address_of (k : ChannelClass) (m : KernelManager) : Address :=
  match channel_of k m with
  | Some c => Channel.get_address c
  | None => Channel.get_address new_channel
  end.

Definition thread_of (k : ChannelClass) (m : KernelManager) : ThreadState :=
  match channel_of k m with
  | Some c => thread c
  | None => thread new_channel
  end.

Definition loop_of (k : ChannelClass) (m : KernelManager) : option IOLoop :=
  match channel_of k m with
  | Some c => ioloop c
  | None => ioloop new_channel
  end.

(** The manager after the channel of class [k] has been accessed. *)
Definition touch (k : ChannelClass) (m : KernelManager) : KernelManager :=
  snd (channel k m).

(** A channel object as the classes keep it: a [RepSocketChannel] never
    has a loop, a socket channel has none before its thread has been
    started. *)
Definition channel_ok (k : ChannelClass) (c : option ZmqSocketChannel)
  : bool :=
  match c with
  | None => true
  | Some c =>
      match k, thread c, ioloop c with
      | RepClass, _, None => true
      | RepClass, _, Some _ => false
      | _, Initial, Some _ => false
      | _, _, _ => true
      end
  end.

Definition is_started (c : option ZmqSocketChannel) : bool :=
  match c with
  | Some c => Thread.started c
  | None => false
  end.

(** What holds of a manager that is only used through its own methods:
    its channels are as the classes keep them, their threads have all
    been started or none has, and they have been started when the manager
    is listening. *)
Definition consistent (m : KernelManager) : bool :=
  channel_ok SubClass (_sub_channel m)
  && channel_ok XReqClass (_xreq_channel m)
  && channel_ok RepClass (_rep_channel m)
  && eqb (is_started (_sub_channel m)) (is_started (_xreq_channel m))
  && eqb (is_started (_xreq_channel m)) (is_started (_rep_channel m))
  && implb (is_listening m) (is_started (_sub_channel m)).

(** The calls a frontend makes on the manager, and what else happens to
    it: the thread of a channel, once started, getting to execute [run],
    and coming to its end by itself. *)
Inductive Step :=
| call_start_listening
| call_stop_listening
| call_start_kernel
| call_set_kernel (kernel : option Popen)
| call_kill_kernel
| call_signal_kernel (signum : Z)
| call_get_address (k : ChannelClass)
| call_set_address (k : ChannelClass) (a : option Address)
| thread_runs (k : ChannelClass)
| thread_exits (k : ChannelClass).

(** The started thread executes [run], once. *)
Definition run_thread (k : ChannelClass) (c : ZmqSocketChannel)
  : ZmqSocketChannel :=
  match thread c, ioloop c with
  | Alive, None => run k c
  | _, _ => c
  end.

Definition exit_thread (c : ZmqSocketChannel) : ZmqSocketChannel :=
  match thread c with
  | Alive => with_thread Finished c
  | _ => c
  end.

Definition step (st : Step) (m : KernelManager) : KernelManager :=
  match st with
  | call_start_listening => snd (start_listening m)
  | call_stop_listening => snd (stop_listening m)
  | call_start_kernel => snd (start_kernel m)
  | call_set_kernel kernel => snd (set_kernel kernel m)
  | call_kill_kernel => snd (kill_kernel m)
  | call_signal_kernel signum => snd (signal_kernel signum m)
  | call_get_address k => snd (get_address k m)
  | call_set_address k a => snd (set_address k a m)
  | thread_runs k => with_channel k (run_thread k <$> channel_of k m) m
  | thread_exits k => with_channel k (exit_thread <$> channel_of k m) m
  end.

(** The states a manager gets into from [fresh]. *)
Inductive reachable : KernelManager -> Prop :=
| reachable_fresh : reachable fresh
| reachable_step st m : reachable m -> reachable (step st m).
End WithLauncher.

(** A launcher for examples: process 4242, binding the requested ports
    and 5555, 5556 where port 0 leaves the choice open. *)
Definition example_launch (xrep_port pub_port : Z) : Popen * Z * Z :=
  ({| pid := 4242 |},
   if xrep_port =? 0 then 5555 else xrep_port,
   if pub_port =? 0 then 5556 else pub_port).
End KM.

(** ** Notions the further properties are stated with *)

(** The mask the loop watches the socket with is the channel's interest. *)
Definition in_sync (c : ZmqSocketChannel) : Prop :=
  match iostate c, ioloop c with
  | Some i, Some l => handler_events l = i
  | _, _ => True
  end.

(** The interest a posted callback leaves, given the interest it finds. *)
Definition interest_after (cb : Callback) (i : Z) : Z :=
  match cb with
  | add_io_state_callback state =>
      if truthy (Z.land i state) then i else Z.lor i state
  | drop_io_state_callback state =>
      if truthy (Z.land i state) then Z.land i (Z.lnot state) else i
  end.

(** The wire of a channel's socket, if it has one. *)
Definition wire_of (c : ZmqSocketChannel) : option (list Envelope) :=
  wire <$> socket c.

(** The callback asks for, or gives up, writable interest. *)
Definition about_pollout (cb : Callback) : Prop :=
  cb = add_io_state_callback POLLOUT \/ cb = drop_io_state_callback POLLOUT.

(** The interest of a request channel at work: the socket and the loop
    exist, the interest is reading and errors with or without writing, the
    loop watches the socket with it, and every callback waiting is about
    writable interest. *)
Definition steady_interest (c : ZmqSocketChannel) : Prop :=
  is_Some (socket c)
  /\ (iostate c = Some (Z.lor POLLERR POLLIN)
      \/ iostate c = Some (Z.lor (Z.lor POLLERR POLLIN) POLLOUT))
  /\ in_sync c
  /\ exists l, ioloop c = Some l /\ Forall about_pollout (loop_callbacks l).

(** * Properties *)

(** ** Outcomes of the basic operations *)

Lemma truthy_true n : truthy n = true <-> n <> 0.
Proof. unfold truthy. destruct (Z.eqb_spec n 0); simpl; split; congruence. Qed.

Lemma truthy_false n : truthy n = false <-> n = 0.
Proof. unfold truthy. destruct (Z.eqb_spec n 0); simpl; split; congruence. Qed.

Lemma land_lor_same i state : Z.land i state = 0 ->
  Z.land (Z.lor i state) state = state.
Proof.
  intros Hz. rewrite Z.land_lor_distr_l, Hz, Z.land_diag. apply Z.lor_0_l.
Qed.

Lemma land_lnot_same i state : Z.land (Z.land i (Z.lnot state)) state = 0.
Proof.
  rewrite <- Z.land_assoc, (Z.land_comm (Z.lnot state)), Z.land_lnot_diag.
  apply Z.land_0_r.
Qed.

(** ** Interest flags *)

Section InterestFlags.
Import Channel.

Lemma add_present c i state :
  iostate c = Some i -> Z.land i state <> 0 ->
  run_add_io_state_callback state c = (Return tt, c).
Proof.
  intros Hi Hp. unfold run_add_io_state_callback. rewrite Hi.
  apply truthy_true in Hp. now rewrite Hp.
Qed.

Lemma drop_absent c i state :
  iostate c = Some i -> Z.land i state = 0 ->
  run_drop_io_state_callback state c = (Return tt, c).
Proof.
  intros Hi Hp. unfold run_drop_io_state_callback. rewrite Hi.
  apply truthy_false in Hp. now rewrite Hp.
Qed.

Lemma add_iostate c i state :
  iostate c = Some i ->
  iostate (snd (run_add_io_state_callback state c))
  = Some (if truthy (Z.land i state) then i else Z.lor i state).
Proof.
  intros Hi. unfold run_add_io_state_callback. rewrite Hi.
  destruct (truthy (Z.land i state)); simpl; [exact Hi|].
  unfold bind, modify, IOLoopOps.update_handler, IOLoopOps.on_ioloop; simpl.
  now destruct (ioloop c).
Qed.

Lemma drop_iostate c i state :
  iostate c = Some i ->
  iostate (snd (run_drop_io_state_callback state c))
  = Some (if truthy (Z.land i state) then Z.land i (Z.lnot state) else i).
Proof.
  intros Hi. unfold run_drop_io_state_callback. rewrite Hi.
  destruct (truthy (Z.land i state)); simpl; [|exact Hi].
  unfold bind, modify, IOLoopOps.update_handler, IOLoopOps.on_ioloop; simpl.
  now destruct (ioloop c).
Qed.

(** C9. The callbacks posted by [add_io_state] and [drop_io_state] are
    idempotent. On a channel whose interest is set: adding a flag that is
    already present, or dropping one that is already absent, leaves the
    whole channel as it is, so neither the interest bitmask changes nor is
    [update_handler] called; and running the same callback a second time
    leaves the interest bitmask as the first run left it. *)
Theorem io_state_callbacks_idempotent (c : ZmqSocketChannel) (i state : Z) :
  iostate c = Some i ->
  (Z.land i state <> 0 ->
     run_add_io_state_callback state c = (Return tt, c))
  /\ (Z.land i state = 0 ->
        run_drop_io_state_callback state c = (Return tt, c))
  /\ iostate (snd (run_add_io_state_callback state
                     (snd (run_add_io_state_callback state c))))
     = iostate (snd (run_add_io_state_callback state c))
  /\ iostate (snd (run_drop_io_state_callback state
                     (snd (run_drop_io_state_callback state c))))
     = iostate (snd (run_drop_io_state_callback state c)).
Proof.
  intros Hi. split; [|split; [|split]].
  - now apply add_present.
  - now apply drop_absent.
  - rewrite (add_iostate c i state Hi).
    destruct (truthy (Z.land i state)) eqn:Hp.
    + rewrite (add_iostate _ i state).
      * now rewrite Hp.
      * rewrite (add_iostate c i state Hi). now rewrite Hp.
    + apply truthy_false in Hp.
      rewrite (add_iostate _ (Z.lor i state) state).
      * rewrite (land_lor_same _ _ Hp).
        destruct (truthy state) eqn:Hs; [reflexivity|].
        apply truthy_false in Hs. subst state.
        now rewrite !Z.lor_0_r.
      * rewrite (add_iostate c i state Hi).
        apply truthy_false in Hp. now rewrite Hp.
  - rewrite (drop_iostate c i state Hi).
    destruct (truthy (Z.land i state)) eqn:Hp.
    + rewrite (drop_iostate _ (Z.land i (Z.lnot state)) state).
      * rewrite land_lnot_same. reflexivity.
      * rewrite (drop_iostate c i state Hi). now rewrite Hp.
    + rewrite (drop_iostate _ i state).
      * now rewrite Hp.
      * rewrite (drop_iostate c i state Hi). now rewrite Hp.
Qed.
End InterestFlags.

(** Witness of C9: a request channel's interest after [run], asked for
    writable interest twice. *)
Lemma io_state_callbacks_idempotent_witness :
  let c := Loop.setup (Z.lor POLLERR POLLIN)
             {| thread := Alive; _address := (LOCALHOST, 0); socket := None;
                ioloop := None; iostate := None |} in
  iostate c = Some 5
  /\ iostate (snd (Channel.run_add_io_state_callback POLLOUT
                     (snd (Channel.run_add_io_state_callback POLLOUT c))))
     = iostate (snd (Channel.run_add_io_state_callback POLLOUT c)).
Proof.
  intros c. split; [reflexivity|].
  apply (io_state_callbacks_idempotent c 5 POLLOUT). reflexivity.
Defined.

(** ** Addresses *)

Lemma stop_not_alive k c0 c :
  KM.stop k c0 = (Return tt, c) -> Thread.is_alive c = false.
Proof.
  unfold KM.stop, socket_channel_stop, Channel.stop, IOLoopOps.stop,
    IOLoopOps.on_ioloop, Thread.join, Thread.is_alive, bind.
  destruct k, c0 as [t a so [l|] io]; simpl;
    destruct t; simpl; try destruct (loop_stopped l); simpl;
    intros [= <-]; reflexivity.
Qed.

(** C3. Setting the address of a channel whose thread is alive raises the
    [RuntimeError] of a running channel and leaves the channel, its stored
    address included, as it was. On a channel whose thread is not alive,
    which is the case before [start] and after a [stop] that returned, the
    setter succeeds and the getter then returns the address that was set;
    [None], which is not an address but the request to reset it, sets the
    default address of the local host with port 0. *)
Theorem set_adresss_spec (c : ZmqSocketChannel) (address : option Address) :
  (Thread.is_alive c = true ->
     Channel.set_adresss address c
     = (Raise (RuntimeError "Cannot set address on a running channel!"), c))
  /\ (Thread.is_alive c = false ->
        exists c',
          Channel.set_adresss address c = (Return tt, c')
          /\ (forall a, address = Some a -> Channel.returns_value_set address c')
          /\ Channel.get_address c'
             = match address with
               | Some a => a
               | None => (LOCALHOST, 0)
               end
          /\ thread c' = thread c)
  /\ (thread c = Initial -> Thread.is_alive c = false)
  /\ (forall k c0, KM.stop k c0 = (Return tt, c) -> Thread.is_alive c = false).
Proof.
  split; [|split; [|split]].
  - intros Ha. unfold Channel.set_adresss. now rewrite Ha.
  - intros Ha. unfold Channel.set_adresss. rewrite Ha.
    eexists. split; [reflexivity|]. split; [|split; reflexivity].
    intros a ->. reflexivity.
  - unfold Thread.is_alive. now intros ->.
  - intros k c0. apply stop_not_alive.
Qed.

(** Witness of C3: a running channel refuses, a channel that has not
    started accepts. *)
Lemma set_adresss_spec_witness :
  Channel.set_adresss (Some ("10.0.0.7"%string, 5555))
    (with_thread Alive KM.new_channel)
  = (Raise (RuntimeError "Cannot set address on a running channel!"),
     with_thread Alive KM.new_channel)
  /\ exists c',
       Channel.set_adresss (Some ("10.0.0.7"%string, 5555)) KM.new_channel
       = (Return tt, c')
       /\ Channel.get_address c' = ("10.0.0.7"%string, 5555).
Proof.
  split.
  - apply (set_adresss_spec (with_thread Alive KM.new_channel)). reflexivity.
  - destruct (set_adresss_spec KM.new_channel
                (Some ("10.0.0.7"%string, 5555))) as (_ & Hset & _).
    destruct Hset as (c' & E & _ & Hget & _); [reflexivity|].
    exists c'. split; [exact E|exact Hget].
Defined.

(** ** Requests *)

Section Requests.
Variable Sess : Type.
Variable new_id : Sess -> pyval * Sess.
Variable H : Type.
Variable call_handlers : Envelope -> M H unit.

Local Abbreviation Chan := (XReq.XReqSocketChannel Sess H).
Local Abbreviation request := (XReq.request Sess new_id H).

(** What [_queue_request] does to a channel whose loop exists. *)
Lemma queue_request_running (s : Chan) msg callback l :
  ioloop (XReq.base s) = Some l ->
  XReq._queue_request Sess H msg callback s
  = (Return tt,
     XReq.with_base Sess H
       (with_ioloop
          (Some {| loop_callbacks := loop_callbacks l
                                     ++ [add_io_state_callback POLLOUT];
                   handler_events := handler_events l;
                   handler_updates := handler_updates l;
                   loop_stopped := loop_stopped l |}) (XReq.base s))
       (XReq.with_command_queue Sess H (XReq.command_queue s ++ [msg]) s)).
Proof.
  intros Hl.
  unfold XReq._queue_request, bind, modify, XReq.on_base, zoom,
    Channel.add_io_state, IOLoopOps.add_callback, IOLoopOps.on_ioloop.
  simpl. now rewrite Hl.
Qed.

(** Every request goes the same way: the session builds the envelope of
    the request's type around the request's content, and the envelope is
    queued. *)
Lemma request_unfold (r : XReq.Request) (s : Chan) :
  request r s
  = (let! msg := XReq.on_session Sess H
                   (session_msg Sess new_id (XReq.type_of r) (XReq.body_of r)) in
     XReq._queue_request Sess H msg
       match r with
       | XReq.Execute _ cb | XReq.Complete _ _ _ cb | XReq.ObjectInfo _ cb => cb
       end ;;;
     ret (msg_id (header msg))) s.
Proof. destruct r; reflexivity. Qed.

(** A request on a channel whose loop exists, in full. *)
Lemma request_effect (r : XReq.Request) (s : Chan) l :
  ioloop (XReq.base s) = Some l ->
  request r s
  = (Return (fst (new_id (XReq.session s))),
     {| XReq.base :=
          with_ioloop
            (Some {| loop_callbacks := loop_callbacks l
                                       ++ [add_io_state_callback POLLOUT];
                     handler_events := handler_events l;
                     handler_updates := handler_updates l;
                     loop_stopped := loop_stopped l |}) (XReq.base s);
        XReq.command_queue :=
          XReq.command_queue s
          ++ [ {| header := {| msg_id := fst (new_id (XReq.session s));
                               msg_type := XReq.type_of r |};
                  content := XReq.body_of r |} ];
        XReq.session := snd (new_id (XReq.session s));
        XReq.handlers := XReq.handlers s;
        XReq.dispatched := XReq.dispatched s |}).
Proof.
  intros Hl. rewrite request_unfold.
  unfold bind at 1. unfold XReq.on_session, zoom, session_msg.
  destruct (new_id (XReq.session s)) as [i x'].
  unfold bind at 1.
  erewrite queue_request_running by (simpl; exact Hl).
  reflexivity.
Qed.

(** X23. On a request channel whose loop exists, each of [execute],
    [complete] and [object_info] returns, and what it returns is the id the
    session generated for the envelope; the envelope carries the type and
    the content body of the request kind, it is the one envelope added at
    the tail of the queue, and the id returned is the one in its header.
    Nothing is transmitted or received by the call, which only posts the
    request for writable interest. *)
Theorem request_enqueues_and_returns_id (r : XReq.Request) (s : Chan) :
  is_Some (ioloop (XReq.base s)) ->
  exists i x' s',
    new_id (XReq.session s) = (i, x')
    /\ request r s = (Return i, s')
    /\ XReq.command_queue s'
       = XReq.command_queue s
         ++ [ {| header := {| msg_id := i; msg_type := XReq.type_of r |};
                 content := XReq.body_of r |} ]
    /\ (exists msg, last (XReq.command_queue s') = Some msg
                    /\ msg_id (header msg) = i)
    /\ XReq.session s' = x'
    /\ socket (XReq.base s') = socket (XReq.base s)
    /\ XReq.dispatched s' = XReq.dispatched s
    /\ XReq.posted Sess H s'
       = XReq.posted Sess H s ++ [add_io_state_callback POLLOUT].
Proof.
  intros [l Hl]. rewrite (request_effect r s l Hl).
  destruct (new_id (XReq.session s)) as [i x'].
  exists i, x'. eexists. split; [reflexivity|]. split; [reflexivity|].
  simpl. split; [reflexivity|]. split.
  - eexists. rewrite last_snoc. split; reflexivity.
  - unfold XReq.posted. simpl. rewrite Hl. repeat split; reflexivity.
Qed.

(** C10. [complete] never looks at [block] (nor at [callback]): two calls
    that differ in it alone have the same outcome and leave the same
    channel, and the content of the envelope the call queues has the two
    keys [text] and [line] and no other. *)
Theorem complete_discards_block (text line block block' callback : pyval)
    (s : Chan) :
  XReq.complete Sess new_id H text line block callback s
  = XReq.complete Sess new_id H text line block' callback s
  /\ exists msg,
       XReq.command_queue
         (snd (XReq.complete Sess new_id H text line block callback s))
       = XReq.command_queue s ++ [msg]
       /\ content msg !! "text"%string = Some text
       /\ content msg !! "line"%string = Some line
       /\ dom (content msg) = ({["text"%string; "line"%string]} : gset string).
Proof.
  split; [reflexivity|].
  unfold XReq.complete, bind, XReq.on_session, zoom, session_msg.
  destruct (new_id (XReq.session s)) as [i x'].
  unfold XReq._queue_request, bind, modify, XReq.on_base, zoom,
    Channel.add_io_state, IOLoopOps.add_callback, IOLoopOps.on_ioloop.
  simpl. eexists.
  split; [destruct (ioloop (XReq.base s)); reflexivity|].
  simpl. split; [reflexivity|]. split; [reflexivity|].
  rewrite dom_insert_L, dom_singleton_L. reflexivity.
Qed.
End Requests.

(** ** Transmission order *)

Section Transmission.
Variable Sess : Type.
Variable new_id : Sess -> pyval * Sess.
Variable H : Type.
Variable call_handlers : Envelope -> M H unit.

Local Abbreviation Chan := (XReq.XReqSocketChannel Sess H).
Local Abbreviation transmitted := (XReq.transmitted Sess H).
Local Abbreviation posted := (XReq.posted Sess H).
Local Abbreviation running := (XReq.running Sess H).
Local Abbreviation undisturbed := (XReq.undisturbed Sess H).
Local Abbreviation _handle_send := (XReq._handle_send Sess H).
Local Abbreviation _handle_events := (XReq._handle_events Sess H call_handlers).
Local Abbreviation occur := (XReq.occur Sess new_id H call_handlers).
Local Abbreviation play := (XReq.play Sess new_id H call_handlers).
Local Abbreviation envelopes := (XReq.envelopes Sess new_id).

Lemma undisturbed_refl s : undisturbed s s.
Proof. unfold XReq.undisturbed. auto. Qed.

(** [_handle_send] on a running channel: the head of the queue, if there is
    one, goes on the wire, and when the queue is empty afterwards the
    callback that drops writable interest is posted. *)
Lemma handle_send_running (s : Chan) :
  running s ->
  exists s',
    _handle_send s = (Return tt, s')
    /\ transmitted s' = transmitted s ++ take 1 (XReq.command_queue s)
    /\ XReq.command_queue s' = drop 1 (XReq.command_queue s)
    /\ posted s'
       = posted s
         ++ match XReq.command_queue s' with
            | [] => [drop_io_state_callback POLLOUT]
            | _ :: _ => []
            end
    /\ XReq.session s' = XReq.session s
    /\ iostate (XReq.base s') = iostate (XReq.base s)
    /\ running s'.
Proof.
  intros (Hso & Hl & Hio).
  destruct s as [[t a so lo io] q x h d]. simpl in *.
  destruct Hso as [sock ->], Hl as [l ->], Hio as [i ->].
  unfold XReq._handle_send, XReq.transmitted, XReq.posted, XReq.running.
  destruct q as [|msg [|msg' rest]]; simpl;
    eexists; (split; [reflexivity|]); simpl;
    rewrite ?app_nil_r; repeat split; eauto.
Qed.

Lemma recv_json_frame (c c' : ZmqSocketChannel) o :
  recv_json c = (o, c') ->
  (match socket c, socket c' with
   | Some k, Some k' => wire k' = wire k
   | None, None => True
   | _, _ => False
   end)
  /\ ioloop c' = ioloop c /\ iostate c' = iostate c.
Proof.
  unfold recv_json, on_socket.
  destruct c as [t a [sock|] lo io]; simpl.
  - destruct (pending sock) as [|[msg|e] rest]; intros [= <- <-]; simpl; auto.
  - intros [= <- <-]. simpl. auto.
Qed.

Lemma handle_recv_undisturbed (s s' : Chan) o :
  XReq._handle_recv Sess H call_handlers s = (o, s') -> undisturbed s s'.
Proof.
  unfold XReq._handle_recv, bind, XReq.on_base, zoom.
  destruct (recv_json (XReq.base s)) as [o1 c1] eqn:Hr.
  apply recv_json_frame in Hr. destruct Hr as (Hw & Hl & Hio).
  assert (Hstep : undisturbed s (XReq.with_base Sess H c1 s)).
  { unfold XReq.undisturbed, XReq.transmitted, XReq.running. simpl.
    rewrite Hl, Hio.
    destruct (socket (XReq.base s)), (socket c1); try contradiction;
      (split; [congruence|]); (split; [reflexivity|]);
      (split; [reflexivity|]); intros (Hs & ? & ?).
    - repeat split; eauto.
    - destruct Hs as [? [=]]. }
  destruct o1 as [msg| |]; try (intros [= <- <-]; exact Hstep).
  unfold XReq.invoke_call_handlers, bind, modify, zoom. simpl.
  destruct (call_handlers msg (XReq.handlers s)) as [o2 h2].
  intros [= <- <-]. exact Hstep.
Qed.

(** Readiness events keep what was transmitted and what waits in order. *)
Lemma handle_events_order (events : Z) (s s' : Chan) o :
  running s ->
  _handle_events events s = (o, s') ->
  transmitted s' ++ XReq.command_queue s'
  = transmitted s ++ XReq.command_queue s
  /\ XReq.session s' = XReq.session s
  /\ running s'.
Proof.
  intros Hrun. unfold XReq._handle_events, bind.
  destruct (truthy (Z.land events POLLERR)); simpl;
    [intros [= <- <-]; auto|].
  assert (Hsend : exists s1,
    (if truthy (Z.land events POLLOUT) then _handle_send else ret tt) s
    = (Return tt, s1)
    /\ transmitted s1 ++ XReq.command_queue s1
       = transmitted s ++ XReq.command_queue s
    /\ XReq.session s1 = XReq.session s /\ running s1).
  { destruct (truthy (Z.land events POLLOUT)).
    - destruct (handle_send_running s Hrun)
        as (s1 & E & Hw & Hq & _ & Hx & _ & Hr).
      exists s1. split; [exact E|]. split; [|auto].
      rewrite Hw, Hq, <- app_assoc, take_drop. reflexivity.
    - exists s. auto. }
  destruct Hsend as (s1 & -> & Hord & Hx & Hr).
  destruct (truthy (Z.land events POLLIN)); simpl;
    [|intros [= <- <-]; auto].
  intros E. apply handle_recv_undisturbed in E.
  destruct E as (Hw & Hq & Hx2 & Hr2).
  rewrite Hw, Hq. split; [exact Hord|]. split; [congruence|auto].
Qed.

Lemma run_next_callback_frame (c : ZmqSocketChannel) :
  let c' := snd (Loop.run_next_callback c) in
  socket c' = socket c
  /\ (is_Some (ioloop c) -> is_Some (ioloop c'))
  /\ (is_Some (iostate c) -> is_Some (iostate c')).
Proof.
  unfold Loop.run_next_callback.
  destruct c as [t a so [l|] io]; simpl; [|auto].
  destruct (loop_callbacks l) as [|cb rest]; simpl; [auto|].
  destruct cb as [st|st]; simpl;
    unfold Channel.run_add_io_state_callback,
      Channel.run_drop_io_state_callback; simpl;
    destruct io as [i|]; simpl; eauto;
    destruct (truthy (Z.land i st)); simpl; eauto.
Qed.

Lemma callback_due_undisturbed (s : Chan) :
  undisturbed s (snd (XReq.on_base Sess H Loop.run_next_callback s)).
Proof.
  unfold XReq.on_base, zoom.
  pose proof (run_next_callback_frame (XReq.base s)) as (Hso & Hl & Hio).
  destruct (Loop.run_next_callback (XReq.base s)) as [o c']. simpl in *.
  unfold XReq.undisturbed, XReq.transmitted, XReq.running. simpl.
  rewrite Hso. repeat split; tauto.
Qed.

Lemma arrives_undisturbed entry (s : Chan) :
  undisturbed s (XReq.with_base Sess H (XReq.deliver entry (XReq.base s)) s).
Proof.
  unfold XReq.undisturbed, XReq.transmitted, XReq.running, XReq.deliver. simpl.
  destruct (socket (XReq.base s)) eqn:E; simpl; rewrite ?E;
    (split; [reflexivity|]); (split; [reflexivity|]);
    (split; [reflexivity|]); intros (Hs & ? & ?); repeat split; eauto.
Qed.

Lemma request_running (r : XReq.Request) (s : Chan) :
  running s ->
  exists i x' s',
    new_id (XReq.session s) = (i, x')
    /\ XReq.request Sess new_id H r s = (Return i, s')
    /\ XReq.command_queue s'
       = XReq.command_queue s
         ++ [ {| header := {| msg_id := i; msg_type := XReq.type_of r |};
                 content := XReq.body_of r |} ]
    /\ XReq.session s' = x'
    /\ transmitted s' = transmitted s
    /\ running s'.
Proof.
  intros (Hso & [l Hl] & Hio).
  rewrite (request_effect Sess new_id H r s l Hl).
  destruct (new_id (XReq.session s)) as [i x'].
  exists i, x'. eexists. split; [reflexivity|]. split; [reflexivity|].
  unfold XReq.transmitted, XReq.running. simpl. repeat split; eauto.
Qed.
(** One event, seen from the queue and the wire. *)
Lemma occur_order (e : XReq.Event) (s : Chan) :
  running s ->
  transmitted (fst (occur e s)) ++ XReq.command_queue (fst (occur e s))
  = transmitted s ++ XReq.command_queue s ++ envelopes [e] (XReq.session s)
  /\ snd (occur e s)
     = map (fun msg => msg_id (header msg)) (envelopes [e] (XReq.session s))
  /\ running (fst (occur e s))
  /\ forall es,
       envelopes (e :: es) (XReq.session s)
       = envelopes [e] (XReq.session s)
         ++ envelopes es (XReq.session (fst (occur e s))).
Proof.
  intros Hrun. destruct e as [r|events| |entry|type body]; simpl.
  - destruct (request_running r s Hrun)
      as (i & x' & s' & Hid & E & Hq & Hx & Hw & Hr).
    rewrite E, Hid. simpl. rewrite Hw, Hq, Hx.
    split; [reflexivity|]. split; [reflexivity|]. split; [exact Hr|].
    reflexivity.
  - destruct (_handle_events events s) as [o s'] eqn:E.
    destruct (handle_events_order events s s' o Hrun E) as (Ho & Hx & Hr).
    simpl. rewrite Ho, Hx, app_nil_r. auto.
  - destruct (callback_due_undisturbed s) as (Hw & Hq & Hx & Hr).
    rewrite Hw, Hq, Hx, app_nil_r. auto.
  - destruct (arrives_undisturbed entry s) as (Hw & Hq & Hx & Hr).
    rewrite Hw, app_nil_r. auto.
  - unfold XReq.on_session, zoom, session_msg, XReq.transmitted, XReq.running.
    destruct (new_id (XReq.session s)) as [i x']. simpl.
    rewrite app_nil_r. auto.
Qed.

(** A whole history: what is on the wire followed by what still waits is
    what was there before followed by the envelopes of the requests, in the
    order of the requests. *)
Lemma play_order (es : list XReq.Event) : forall s : Chan,
  running s ->
  transmitted (fst (play es s)) ++ XReq.command_queue (fst (play es s))
  = transmitted s ++ XReq.command_queue s ++ envelopes es (XReq.session s)
  /\ snd (play es s)
     = map (fun msg => msg_id (header msg)) (envelopes es (XReq.session s))
  /\ running (fst (play es s)).
Proof.
  induction es as [|e es IH]; intros s Hrun.
  - simpl. rewrite app_nil_r. auto.
  - destruct (occur_order e s Hrun) as (Ho & Hi & Hr & He).
    cbn [XReq.play].
    destruct (occur e s) as [s1 ids1] eqn:E1. simpl in Ho, Hi, Hr, He.
    destruct (IH s1 Hr) as (Ho2 & Hi2 & Hr2).
    destruct (play es s1) as [s2 ids2] eqn:E2. simpl in Ho2, Hi2, Hr2 |- *.
    rewrite He, Ho2, Hi, Hi2, map_app.
    rewrite (app_assoc (transmitted s1)), Ho, <- !app_assoc. auto.
Qed.

(** The ids of the requests of a history are among the ids the session
    hands out over the history, in the same order. *)
Lemma envelope_ids_upcoming (es : list XReq.Event) : forall x : Sess,
  map (fun msg => msg_id (header msg)) (envelopes es x)
  `sublist_of` upcoming_ids Sess new_id (XReq.session_uses es) x.
Proof.
  induction es as [|e es IH]; intros x; [constructor|].
  destruct e as [r|events| |entry|type body]; simpl; try apply IH.
  - destruct (new_id x) as [i x']. simpl. constructor. apply IH.
  - destruct (new_id x) as [i x']. simpl. apply sublist_cons, IH.
Qed.

Lemma handle_recv_posted (s s' : Chan) o :
  XReq._handle_recv Sess H call_handlers s = (o, s') -> posted s' = posted s.
Proof.
  unfold XReq._handle_recv, bind, XReq.on_base, zoom, XReq.posted.
  destruct (recv_json (XReq.base s)) as [o1 c1] eqn:Hr.
  apply recv_json_frame in Hr. destruct Hr as (_ & Hl & _).
  destruct o1 as [msg| |]; try (intros [= <- <-]; simpl; now rewrite Hl).
  unfold XReq.invoke_call_handlers, bind, modify, zoom. simpl.
  destruct (call_handlers msg (XReq.handlers s)) as [o2 h2].
  intros [= <- <-]. simpl. now rewrite Hl.
Qed.

(** An event that reports writable readiness, and no error, sends. *)
Lemma writable_readiness_sends (events : Z) (s : Chan) :
  running s ->
  Z.land events POLLOUT <> 0 ->
  Z.land events POLLERR = 0 ->
  transmitted (snd (_handle_events events s))
  = transmitted s ++ take 1 (XReq.command_queue s)
  /\ XReq.command_queue (snd (_handle_events events s))
     = drop 1 (XReq.command_queue s)
  /\ posted (snd (_handle_events events s))
     = posted s
       ++ match XReq.command_queue (snd (_handle_events events s)) with
          | [] => [drop_io_state_callback POLLOUT]
          | _ :: _ => []
          end.
Proof.
  intros Hrun Hout Herr.
  apply truthy_true in Hout. apply truthy_false in Herr.
  destruct (handle_send_running s Hrun) as (s1 & E & Hw & Hq & Hp & _).
  unfold XReq._handle_events, bind. rewrite Herr, Hout. simpl. rewrite E.
  destruct (truthy (Z.land events POLLIN)); simpl.
  - destruct (XReq._handle_recv Sess H call_handlers s1) as [o s2] eqn:E2.
    pose proof (handle_recv_posted s1 s2 o E2) as Hp2.
    apply handle_recv_undisturbed in E2. destruct E2 as (Hw2 & Hq2 & _).
    simpl. rewrite Hw2, Hq2, Hp2. auto.
  - auto.
Qed.

(** The requests alone: they queue their envelopes and post their requests
    for writable interest. *)
Lemma requests_effect (rs : list XReq.Request) : forall s : Chan,
  running s ->
  transmitted (XReq.after_requests Sess new_id H call_handlers rs s)
  = transmitted s
  /\ XReq.command_queue (XReq.after_requests Sess new_id H call_handlers rs s)
     = XReq.command_queue s
       ++ envelopes (map XReq.requested rs) (XReq.session s)
  /\ running (XReq.after_requests Sess new_id H call_handlers rs s)
  /\ iostate (XReq.base (XReq.after_requests Sess new_id H call_handlers rs s))
     = iostate (XReq.base s)
  /\ posted (XReq.after_requests Sess new_id H call_handlers rs s)
     = posted s ++ replicate (length rs) (add_io_state_callback POLLOUT).
Proof.
  unfold XReq.after_requests.
  induction rs as [|r rs IH]; intros s Hrun.
  - simpl. rewrite !app_nil_r. auto.
  - pose proof Hrun as (Hso & [l Hl] & Hio).
    cbn [map XReq.play XReq.occur XReq.envelopes].
    rewrite (request_effect Sess new_id H r s l Hl).
    destruct (new_id (XReq.session s)) as [i x'] eqn:Hid.
    cbn [fst snd].
    set (s1 := {| XReq.base := _ |}).
    assert (Hrun1 : running s1).
    { unfold XReq.running. simpl. repeat split; eauto. }
    specialize (IH s1 Hrun1).
    destruct (play (map XReq.requested rs) s1) as [s2 ids2].
    cbn [fst] in IH |- *.
    destruct IH as (Hw & Hq & Hr & Hi & Hp).
    split; [rewrite Hw; unfold XReq.transmitted; reflexivity|].
    split; [rewrite Hq; simpl; rewrite <- app_assoc; reflexivity|].
    split; [exact Hr|]. split; [rewrite Hi; reflexivity|].
    rewrite Hp. unfold XReq.posted. simpl. rewrite Hl.
    rewrite <- app_assoc. reflexivity.
Qed.

(** The loop running every callback that waits: none waits afterwards,
    and the interest is what the callbacks make of it, one after the
    other. *)
Lemma callbacks_effect (cbs : list Callback) : forall (s : Chan) i,
  running s -> posted s = cbs -> iostate (XReq.base s) = Some i ->
  let s' := fst (play (replicate (length cbs) XReq.callback_due) s) in
  transmitted s' = transmitted s
  /\ XReq.command_queue s' = XReq.command_queue s
  /\ posted s' = []
  /\ running s'
  /\ iostate (XReq.base s')
     = Some (fold_left (fun i cb => interest_after cb i) cbs i).
Proof.
  induction cbs as [|cb rest IH]; intros s i Hrun Hp Hi; cbn zeta.
  - simpl. auto.
  - destruct s as [[t a so lo io] q x h d].
    destruct Hrun as ([sock Hso] & [l Hl] & _).
    unfold XReq.posted in Hp. simpl in Hso, Hl, Hi, Hp. subst so lo io.
    destruct l as [cbs ev ups stopped]. simpl in Hp. subst cbs.
    cbn [length replicate XReq.play XReq.occur].
    unfold XReq.on_base, zoom, Loop.run_next_callback. cbn.
    assert (Hstep : exists ev' ups',
      Loop.run_callback cb
        (with_ioloop
           (Some {| loop_callbacks := rest; handler_events := ev;
                    handler_updates := ups; loop_stopped := stopped |})
           {| thread := t; _address := a; socket := Some sock;
              ioloop := Some {| loop_callbacks := cb :: rest;
                                handler_events := ev; handler_updates := ups;
                                loop_stopped := stopped |};
              iostate := Some i |})
      = (Return tt,
         {| thread := t; _address := a; socket := Some sock;
            ioloop := Some {| loop_callbacks := rest; handler_events := ev';
                              handler_updates := ups';
                              loop_stopped := stopped |};
            iostate := Some (interest_after cb i) |})).
    { destruct cb as [st|st]; cbn;
        unfold Channel.run_add_io_state_callback,
          Channel.run_drop_io_state_callback; cbn;
        destruct (truthy (Z.land i st)); cbn; eauto. }
    destruct Hstep as (ev' & ups' & ->). cbn [snd fst].
    set (s1 := XReq.with_base Sess H _ _).
    specialize (IH s1 (interest_after cb i)). cbn zeta in IH.
    destruct IH as (Hw & Hq & Hp' & Hr & Hio); try reflexivity.
    { unfold XReq.running. simpl. repeat split; eauto. }
    destruct (play (replicate (length rest) XReq.callback_due) s1)
      as [s2 ids2].
    cbn [fst] in *.
    split; [rewrite Hw; reflexivity|]. split; [rewrite Hq; reflexivity|].
    split; [exact Hp'|]. split; [exact Hr|]. exact Hio.
Qed.

(** As many writable events as envelopes wait: all are transmitted, in
    their order, and the callback that drops writable interest is posted
    by the event that leaves the queue empty. *)
Lemma writable_effect (n : nat) : forall s : Chan,
  running s -> length (XReq.command_queue s) = n ->
  let s' := fst (play (replicate n (XReq.ready POLLOUT)) s) in
  transmitted s' = transmitted s ++ XReq.command_queue s
  /\ XReq.command_queue s' = []
  /\ running s'
  /\ iostate (XReq.base s') = iostate (XReq.base s)
  /\ posted s'
     = posted s ++ match n with
                   | O => []
                   | S _ => [drop_io_state_callback POLLOUT]
                   end.
Proof.
  induction n as [|n IH]; intros s Hrun Hn; cbn zeta.
  - apply nil_length_inv in Hn. simpl. rewrite Hn, !app_nil_r. auto.
  - cbn [replicate XReq.play XReq.occur].
    change (_handle_events POLLOUT s)
      with ((XReq._handle_send Sess H ;;; ret tt) s).
    unfold bind.
    destruct (handle_send_running s Hrun)
      as (s1 & E & Hw & Hq & Hp & _ & Hi & Hr1).
    rewrite E. cbn [snd ret].
    assert (Hn1 : length (XReq.command_queue s1) = n).
    { rewrite Hq, length_drop, Hn. lia. }
    specialize (IH s1 Hr1 Hn1). cbn zeta in IH.
    destruct (play (replicate n (XReq.ready POLLOUT)) s1) as [s2 ids2].
    cbn [fst] in IH |- *.
    destruct IH as (Hw2 & Hq2 & Hr2 & Hi2 & Hp2).
    split; [rewrite Hw2, Hw, Hq, <- app_assoc, take_drop; reflexivity|].
    split; [exact Hq2|]. split; [exact Hr2|].
    split; [congruence|].
    rewrite Hp2, Hp.
    destruct n as [|n].
    + apply nil_length_inv in Hn1. rewrite Hn1, app_nil_r. reflexivity.
    + destruct (XReq.command_queue s1); [discriminate Hn1|].
      rewrite app_nil_r. reflexivity.
Qed.

Lemma interest_after_add_pollout i :
  Z.land (interest_after (add_io_state_callback POLLOUT) i) POLLOUT <> 0.
Proof.
  unfold interest_after.
  destruct (truthy (Z.land i POLLOUT)) eqn:Ht.
  - now apply truthy_true.
  - apply truthy_false in Ht. rewrite land_lor_same by exact Ht. discriminate.
Qed.

Lemma interest_after_drop_pollout i :
  Z.land (interest_after (drop_io_state_callback POLLOUT) i) POLLOUT = 0.
Proof.
  unfold interest_after.
  destruct (truthy (Z.land i POLLOUT)) eqn:Ht.
  - apply land_lnot_same.
  - now apply truthy_false.
Qed.

(** C1. Take a running request channel and any history of requests
    ([execute], [complete], [object_info]), readiness events, posted
    callbacks, arrivals and other uses of the shared session. Then what
    has been transmitted, followed by what still waits in the queue, is
    what was there at the start followed by the envelopes of the requests
    in the order the requests were made; the ids the requests returned are
    the ids of those envelopes, in order, and no two are the same when the
    session generates fresh ids. A writable event ([_handle_send]) on a
    running channel returns, transmits the head of the queue if there is
    one and nothing otherwise, and posts the callback dropping writable
    interest exactly when it leaves the queue empty; that callback leaves
    the interest without the writable flag. Every readiness event that
    reports [POLLOUT] and not [POLLERR] does just that through
    [_handle_events]. And the requests [rs] do get on the wire: once they
    have been made and the loop has run the callbacks they posted, the
    interest has the writable flag; after as many writable events as
    envelopes wait, everything that waited and the envelopes of [rs] have
    been transmitted, in that order, and the queue is empty; and once the
    loop has run the callback this posted, the interest is without the
    writable flag. *)
Theorem requests_transmitted_in_order (es : list XReq.Event)
    (rs : list XReq.Request) (events : Z) (s : Chan) :
  generates_fresh_ids Sess new_id ->
  running s ->
  transmitted (fst (play es s)) ++ XReq.command_queue (fst (play es s))
  = transmitted s ++ XReq.command_queue s ++ envelopes es (XReq.session s)
  /\ snd (play es s)
     = map (fun msg => msg_id (header msg)) (envelopes es (XReq.session s))
  /\ NoDup (snd (play es s))
  /\ (forall s1 : Chan, running s1 ->
        exists s2,
          _handle_send s1 = (Return tt, s2)
          /\ transmitted s2 = transmitted s1 ++ take 1 (XReq.command_queue s1)
          /\ XReq.command_queue s2 = drop 1 (XReq.command_queue s1)
          /\ posted s2
             = posted s1
               ++ match XReq.command_queue s2 with
                  | [] => [drop_io_state_callback POLLOUT]
                  | _ :: _ => []
                  end)
  /\ (forall (c : ZmqSocketChannel) i, iostate c = Some i ->
        exists i',
          iostate (snd (Loop.run_callback (drop_io_state_callback POLLOUT) c))
          = Some i'
          /\ Z.land i' POLLOUT = 0)
  /\ (Z.land events POLLOUT <> 0 -> Z.land events POLLERR = 0 ->
      transmitted (snd (_handle_events events s))
      = transmitted s ++ take 1 (XReq.command_queue s)
      /\ XReq.command_queue (snd (_handle_events events s))
         = drop 1 (XReq.command_queue s)
      /\ posted (snd (_handle_events events s))
         = posted s
           ++ match XReq.command_queue (snd (_handle_events events s)) with
              | [] => [drop_io_state_callback POLLOUT]
              | _ :: _ => []
              end)
  /\ (let s1 := XReq.after_requests Sess new_id H call_handlers rs s in
      let s2 := XReq.after_callbacks Sess new_id H call_handlers s1 in
      let s3 := XReq.after_writable Sess new_id H call_handlers s2 in
      let s4 := XReq.after_callbacks Sess new_id H call_handlers s3 in
      (rs <> [] ->
         exists i, iostate (XReq.base s2) = Some i /\ Z.land i POLLOUT <> 0)
      /\ transmitted s3
         = transmitted s ++ XReq.command_queue s
           ++ envelopes (map XReq.requested rs) (XReq.session s)
      /\ XReq.command_queue s3 = []
      /\ transmitted s4 = transmitted s3
      /\ XReq.command_queue s4 = []
      /\ posted s4 = []
      /\ (XReq.command_queue s1 <> [] ->
          exists i, iostate (XReq.base s4) = Some i /\ Z.land i POLLOUT = 0)).
Proof.
  intros Hfresh Hrun.
  destruct (play_order es s Hrun) as (Ho & Hi & _).
  split; [exact Ho|]. split; [exact Hi|].
  split; [|split; [|split; [|split]]].
  - rewrite Hi. eapply sublist_NoDup; [apply Hfresh|].
    apply envelope_ids_upcoming.
  - intros s1 Hr1.
    destruct (handle_send_running s1 Hr1) as (s2 & E & Hw & Hq & Hp & _).
    exists s2. auto.
  - intros c i Hc. simpl. rewrite (drop_iostate c i POLLOUT Hc).
    destruct (truthy (Z.land i POLLOUT)) eqn:Hp; eexists; split;
      try reflexivity.
    + apply land_lnot_same.
    + now apply truthy_false.
  - intros Hout Herr. now apply writable_readiness_sends.
  - cbn zeta.
    destruct (requests_effect rs s Hrun) as (Hw1 & Hq1 & Hr1 & Hi1 & Hp1).
    set (s1 := XReq.after_requests Sess new_id H call_handlers rs s) in *.
    destruct Hr1 as (Hso1 & Hl1 & [i1 Hio1]).
    assert (Hrun1 : running s1) by (repeat split; eauto).
    destruct (callbacks_effect (posted s1) s1 i1 Hrun1 eq_refl Hio1)
      as (Hw2 & Hq2 & Hp2 & Hr2 & Hi2).
    fold (XReq.after_callbacks Sess new_id H call_handlers s1) in *.
    set (s2 := XReq.after_callbacks Sess new_id H call_handlers s1) in *.
    destruct (writable_effect (length (XReq.command_queue s2)) s2 Hr2 eq_refl)
      as (Hw3 & Hq3 & Hr3 & Hi3 & Hp3).
    fold (XReq.after_writable Sess new_id H call_handlers s2) in *.
    set (s3 := XReq.after_writable Sess new_id H call_handlers s2) in *.
    rewrite Hi2 in Hi3.
    destruct (callbacks_effect (posted s3) s3 _ Hr3 eq_refl Hi3)
      as (Hw4 & Hq4 & Hp4 & Hr4 & Hi4).
    fold (XReq.after_callbacks Sess new_id H call_handlers s3) in *.
    set (s4 := XReq.after_callbacks Sess new_id H call_handlers s3) in *.
    split; [|split; [|split; [|split; [|split; [|split]]]]].
    + intros Hne. eexists. split; [exact Hi2|].
      rewrite Hp1. destruct rs as [|r rs']; [congruence|].
      replace (length (r :: rs')) with (length rs' + 1)%nat by (simpl; lia).
      rewrite replicate_add, app_assoc, fold_left_app. simpl.
      apply interest_after_add_pollout.
    + rewrite Hw3, Hw2, Hq2, Hw1, Hq1. reflexivity.
    + exact Hq3.
    + exact Hw4.
    + rewrite Hq4. exact Hq3.
    + exact Hp4.
    + intros Hne. eexists. split; [exact Hi4|].
      rewrite Hp3, Hp2, Hq2.
      destruct (XReq.command_queue s1) as [|msg q]; [congruence|].
      simpl. apply interest_after_drop_pollout.
Qed.
End Transmission.

(** A session counting its messages generates fresh ids. *)
Lemma counter_ids_from n : forall s i,
  i ∈ upcoming_ids Z counter_new_id n s -> exists k, i = PyInt k /\ s <= k.
Proof.
  induction n as [|n IH]; intros s i; simpl.
  - intros Hin. inversion Hin.
  - intros Hin. apply elem_of_cons in Hin as [->|Hin].
    + exists s. split; [reflexivity|lia].
    + apply IH in Hin as (k & -> & Hk). exists k. split; [reflexivity|lia].
Qed.

Lemma counter_generates_fresh_ids : generates_fresh_ids Z counter_new_id.
Proof.
  intros n. induction n as [|n IH]; intros s; simpl; constructor.
  - intros Hin. apply counter_ids_from in Hin as (k & [= <-] & Hk). lia.
  - apply IH.
Qed.

(** Witness of X23: [execute("x=1")] on a channel that has just run, with
    a counting session. *)
Lemma request_enqueues_and_returns_id_witness :
  let s := XReq.run Z unit
             {| XReq.base := KM.new_channel; XReq.command_queue := [];
                XReq.session := 7; XReq.handlers := tt;
                XReq.dispatched := [] |} in
  exists s',
    XReq.request Z counter_new_id unit
      (XReq.Execute (PyStr "x=1") PyNone) s = (Return (PyInt 7), s')
    /\ XReq.command_queue s'
       = [ {| header := {| msg_id := PyInt 7;
                           msg_type := "execute_request" |};
              content := {[ "code"%string := PyStr "x=1" ]} |} ].
Proof.
  intros s.
  destruct (request_enqueues_and_returns_id Z counter_new_id unit
              (XReq.Execute (PyStr "x=1") PyNone) s)
    as (i & x' & s' & Hid & E & Hq & _).
  - simpl. eauto.
  - injection Hid as <- <-. exists s'. split; [exact E|exact Hq].
Defined.

(** C2. The claim fails on the code where a request comes before the
    channel thread has executed [run]. On a request channel whose thread
    has been started but whose loop is still [None], [execute("x=1")] has
    the session build the envelope and puts it on the queue, and then
    raises the [AttributeError] of [self.ioloop.add_callback]: no id is
    returned for the envelope that waits in the queue. *)
Theorem execute_before_run_raises :
  exists s',
    XReq.execute Z counter_new_id unit (PyStr "x=1") PyNone
      {| XReq.base := snd (KM.start XReqClass KM.new_channel);
         XReq.command_queue := []; XReq.session := 7;
         XReq.handlers := tt; XReq.dispatched := [] |}
    = (Raise (AttributeError "add_callback"), s')
    /\ Thread.is_alive (XReq.base s') = true
    /\ ioloop (XReq.base s') = None
    /\ XReq.command_queue s'
       = [ {| header := {| msg_id := PyInt 7;
                           msg_type := "execute_request" |};
              content := {[ "code"%string := PyStr "x=1" ]} |} ]
    /\ XReq.session s' = 8.
Proof.
  eexists. split; [reflexivity|]. repeat split.
Qed.

(** Witness of C1: two requests, made on a channel that has just run with
    a session that counts, get on the wire in the order they were made,
    with different ids, and writable interest is given up afterwards. *)
Lemma requests_transmitted_in_order_witness :
  let s := XReq.run Z unit
             {| XReq.base := KM.new_channel; XReq.command_queue := [];
                XReq.session := 0; XReq.handlers := tt;
                XReq.dispatched := [] |} in
  let rs := [ XReq.Execute (PyStr "x=1") PyNone;
              XReq.Complete (PyStr "x") (PyStr "x") PyNone PyNone ] in
  let handler := (fun _ : Envelope => ret tt : M unit unit) in
  let s3 := XReq.after_writable Z counter_new_id unit handler
              (XReq.after_callbacks Z counter_new_id unit handler
                 (XReq.after_requests Z counter_new_id unit handler rs s)) in
  XReq.transmitted Z unit s3
  = [ {| header := {| msg_id := PyInt 0; msg_type := "execute_request" |};
         content := {[ "code"%string := PyStr "x=1" ]} |};
      {| header := {| msg_id := PyInt 1; msg_type := "complete_request" |};
         content := <[ "text"%string := PyStr "x" ]>
                      {[ "line"%string := PyStr "x" ]} |} ]
  /\ XReq.command_queue s3 = []
  /\ NoDup (snd (XReq.play Z counter_new_id unit handler
                   (map XReq.requested rs) s))
  /\ exists i,
       iostate (XReq.base (XReq.after_callbacks Z counter_new_id unit
                             handler s3)) = Some i
       /\ Z.land i POLLOUT = 0.
Proof.
  intros s rs handler s3.
  destruct (requests_transmitted_in_order Z counter_new_id unit handler
              (map XReq.requested rs) rs POLLOUT s
              counter_generates_fresh_ids)
    as (_ & _ & Hnd & _ & _ & _ & _ & Hw & Hq & _ & _ & _ & Hidle).
  - unfold XReq.running. simpl. eauto.
  - split; [exact Hw|]. split; [exact Hq|]. split; [exact Hnd|].
    apply Hidle. discriminate.
Defined.

(** ** Draining the broadcast socket *)

Section Broadcast.
Variable H : Type.
Variable call_handlers : Envelope -> M H unit.

Local Abbreviation Chan := (Sub.SubSocketChannel H).
Local Abbreviation recv_loop := (Sub.recv_loop H call_handlers).
Local Abbreviation _handle_recv := (Sub._handle_recv H call_handlers).
Local Abbreviation _handle_events := (Sub._handle_events H call_handlers).

Lemma invoke_available msg (s : Chan) :
  Sub.available H (snd (Sub.invoke_call_handlers H call_handlers msg s))
  = Sub.available H s.
Proof.
  unfold Sub.invoke_call_handlers, bind, modify, zoom, Sub.available. simpl.
  now destruct (call_handlers msg (Sub.handlers s)).
Qed.

Lemma recv_loop_step (fuel : nat) (s : Chan) :
  recv_loop (S fuel) s
  = match Sub.on_base H recv_json_noblock s with
    | (Return msg, s') =>
        (Sub.invoke_call_handlers H call_handlers msg ;;; recv_loop fuel) s'
    | (Raise (ZMQError _), s') => (Return tt, s')
    | (Raise e, s') => (Raise e, s')
    | (Blocked, s') => (Blocked, s')
    end.
Proof. reflexivity. Qed.

(** A receive that returns took the first entry off the socket. *)
Lemma recv_returned (s s' : Chan) msg :
  Sub.on_base H recv_json_noblock s = (Return msg, s') ->
  Sub.available H s = inl msg :: Sub.available H s'
  /\ Sub.handlers s' = Sub.handlers s
  /\ Sub.dispatched s' = Sub.dispatched s.
Proof.
  unfold Sub.on_base, zoom, recv_json_noblock, on_socket, Sub.available.
  destruct s as [[t a [sock|] lo io] h d]; simpl; [|discriminate].
  destruct sock as [[|[m|e] rest] w]; simpl; try discriminate.
  intros [= <- <-]. simpl. auto.
Qed.

(** The loop of [_handle_recv] comes to its end by itself: more rounds than
    the socket has entries change nothing, whatever the entries are and
    whatever the handlers do. *)
Lemma recv_loop_enough (fuel : nat) : forall s : Chan,
  (length (Sub.available H s) < fuel)%nat ->
  recv_loop fuel s = _handle_recv s.
Proof.
  unfold Sub._handle_recv.
  induction fuel as [|fuel IH]; intros s Hlt; [lia|].
  rewrite !recv_loop_step.
  destruct (Sub.on_base H recv_json_noblock s) as [[msg|e|] s1] eqn:E;
    try reflexivity.
  apply recv_returned in E as (Hav & _ & _).
  unfold bind.
  pose proof (invoke_available msg s1) as Hav2.
  destruct (Sub.invoke_call_handlers H call_handlers msg s1) as [o s2].
  simpl in Hav2. destruct o; try reflexivity.
  rewrite Hav in Hlt |- *. simpl in Hlt |- *. rewrite <- Hav2 in Hlt |- *.
  apply IH. lia.
Qed.

(** When every entry is a message and every invocation returns, the loop
    invokes [call_handlers] on each message in turn and leaves the socket
    empty. *)
Lemma recv_loop_drains (msgs : list Envelope) : forall (fuel : nat) (s : Chan) sock,
  socket (Sub.base s) = Some sock ->
  pending sock = map inl msgs ->
  Sub.all_return H call_handlers msgs (Sub.handlers s) ->
  (length msgs < fuel)%nat ->
  recv_loop fuel s
  = (Return tt,
     {| Sub.base :=
          with_socket (Some {| pending := []; wire := wire sock |})
            (Sub.base s);
        Sub.handlers := Sub.handled H call_handlers msgs (Sub.handlers s);
        Sub.dispatched := Sub.dispatched s ++ msgs |}).
Proof.
  induction msgs as [|msg rest IH]; intros fuel s sock Hso Hp Hret Hlt;
    (destruct fuel as [|fuel]; [simpl in Hlt; lia|]);
    rewrite recv_loop_step;
    unfold Sub.on_base, zoom, recv_json_noblock, on_socket;
    rewrite Hso, Hp; simpl.
  - rewrite app_nil_r. destruct sock as [p w]. simpl in Hp. subst p.
    reflexivity.
  - destruct Hret as (Hr1 & Hr2).
    unfold bind at 1.
    unfold Sub.invoke_call_handlers at 1, bind, modify, zoom. simpl.
    destruct (call_handlers msg (Sub.handlers s)) as [o h1]. simpl in Hr1, Hr2.
    subst o.
    erewrite IH; simpl; try reflexivity; try exact Hr2; try (simpl in Hlt; lia).
    rewrite <- app_assoc. reflexivity.
Qed.

(** C8. A broadcast channel gets one event that reports read-readiness
    and no error, with [msgs] waiting on its socket and nothing after them,
    and a [call_handlers] that returns on each. Then [_handle_events]
    returns having invoked [call_handlers] once on every message of [msgs],
    in the order of arrival: the record of invocations has grown by [msgs]
    itself, so by as many invocations as there were messages, and nothing
    is left on the socket. *)
Theorem broadcast_drains_available (events : Z) (msgs : list Envelope)
    (s : Chan) sock :
  socket (Sub.base s) = Some sock ->
  pending sock = map inl msgs ->
  Sub.all_return H call_handlers msgs (Sub.handlers s) ->
  Z.land events POLLIN <> 0 ->
  Z.land events POLLERR = 0 ->
  exists s',
    _handle_events events s = (Return tt, s')
    /\ Sub.dispatched s' = Sub.dispatched s ++ msgs
    /\ length (Sub.dispatched s')
       = (length (Sub.dispatched s) + length msgs)%nat
    /\ Sub.available H s' = []
    /\ Sub.handlers s' = Sub.handled H call_handlers msgs (Sub.handlers s).
Proof.
  intros Hso Hp Hret Hin Herr.
  apply truthy_true in Hin. apply truthy_false in Herr.
  unfold Sub._handle_events, bind. rewrite Hin, Herr. simpl.
  unfold Sub._handle_recv, Sub.available. rewrite Hso, Hp, length_map.
  rewrite (recv_loop_drains msgs (S (length msgs)) s sock Hso Hp Hret)
    by lia.
  eexists. split; [reflexivity|]. simpl.
  rewrite length_app. unfold Sub.available. simpl. auto.
Qed.
End Broadcast.

(** With the [call_handlers] of [SubSocketChannel] itself, which a subclass
    is to override, the first message is taken off the socket and the
    [NotImplementedError] of the invocation ends the event. *)
Lemma broadcast_without_subclass (H : Type) (s : Sub.SubSocketChannel H)
    sock msg rest :
  socket (Sub.base s) = Some sock ->
  pending sock = inl msg :: rest ->
  exists s',
    Sub._handle_events H call_handlers_undefined POLLIN s
    = (Raise (NotImplementedError
                "call_handlers must be defined in a subclass."), s')
    /\ Sub.dispatched s' = Sub.dispatched s ++ [msg]
    /\ Sub.available H s' = rest.
Proof.
  intros Hso Hp.
  unfold Sub._handle_events, bind. simpl.
  unfold Sub._handle_recv, Sub.available. rewrite Hso, Hp. simpl.
  unfold Sub.on_base, zoom, recv_json_noblock, on_socket. rewrite Hso, Hp.
  simpl. eexists. split; [reflexivity|]. simpl. auto.
Qed.

(** Witness of C8: three frames waiting, one read-ready event, a handler
    that counts. *)
Lemma broadcast_drains_available_witness :
  let frame n :=
    {| header := {| msg_id := PyInt n; msg_type := "stream" |};
       content := ∅ |} in
  let count (msg : Envelope) : M nat unit := modify S in
  let s :=
    {| Sub.base :=
         with_socket
           (Some {| pending := [inl (frame 1); inl (frame 2); inl (frame 3)];
                    wire := [] |})
           (Loop.setup (Z.lor POLLIN POLLERR) KM.new_channel);
       Sub.handlers := O; Sub.dispatched := [] |} in
  exists s',
    Sub._handle_events nat count POLLIN s = (Return tt, s')
    /\ Sub.dispatched s' = [frame 1; frame 2; frame 3]
    /\ Sub.handlers s' = 3%nat.
Proof.
  intros frame count s.
  destruct (broadcast_drains_available nat count POLLIN
              [frame 1; frame 2; frame 3] s
              {| pending := [inl (frame 1); inl (frame 2); inl (frame 3)];
                 wire := [] |})
    as (s' & E & Hd & _ & _ & Hh).
  - reflexivity.
  - reflexivity.
  - simpl. auto.
  - discriminate.
  - reflexivity.
  - exists s'. split; [exact E|]. split; [exact Hd|exact Hh].
Defined.

(** ** The kernel process *)

(** C7. Without a process handle [kill_kernel] and [signal_kernel] raise
    the [RuntimeError] that no kernel is running and leave the manager as it
    is. After [set_kernel] of a handle [has_kernel] holds and both succeed:
    [signal_kernel] sends the signal to that process and keeps the handle,
    so [has_kernel] still holds; [kill_kernel], also after a signal, kills
    that process and clears the handle, so [has_kernel] no longer holds. *)
Theorem kill_and_signal_kernel_spec (m : KernelManager) (kernel : Popen)
    (signum : Z) :
  (_kernel m = None ->
     KM.kill_kernel m
     = (Raise (RuntimeError "Cannot kill kernel. No kernel is running!"), m)
     /\ KM.signal_kernel signum m
        = (Raise (RuntimeError "Cannot signal kernel. No kernel is running!"),
           m))
  /\ (let m1 := snd (KM.set_kernel (Some kernel) m) in
      KM.has_kernel m1 = true
      /\ (exists m2,
            KM.signal_kernel signum m1 = (Return tt, m2)
            /\ KM.has_kernel m2 = true
            /\ _kernel m2 = Some kernel
            /\ effects m2 = effects m ++ [signalled kernel signum]
            /\ exists m3,
                 KM.kill_kernel m2 = (Return tt, m3)
                 /\ KM.has_kernel m3 = false
                 /\ effects m3
                    = effects m ++ [signalled kernel signum; killed kernel])
      /\ (exists m3,
            KM.kill_kernel m1 = (Return tt, m3)
            /\ KM.has_kernel m3 = false
            /\ _kernel m3 = None
            /\ effects m3 = effects m ++ [killed kernel])).
Proof.
  split.
  - intros Hk. unfold KM.kill_kernel, KM.signal_kernel, bind, get.
    rewrite Hk. split; reflexivity.
  - simpl. split; [reflexivity|]. split.
    + eexists. split; [reflexivity|]. simpl. repeat split.
      eexists. split; [reflexivity|]. simpl.
      rewrite <- app_assoc. split; reflexivity.
    + eexists. split; [reflexivity|]. simpl. repeat split.
Qed.

(** Witness of C7: a manager nothing has been done with holds no kernel. *)
Lemma kill_and_signal_kernel_spec_witness :
  KM.kill_kernel KM.fresh
  = (Raise (RuntimeError "Cannot kill kernel. No kernel is running!"),
     KM.fresh)
  /\ KM.signal_kernel 2 KM.fresh
     = (Raise (RuntimeError "Cannot signal kernel. No kernel is running!"),
        KM.fresh).
Proof.
  apply (kill_and_signal_kernel_spec KM.fresh {| pid := 4242 |} 2).
  reflexivity.
Defined.

(** ** The channels of the manager *)

(** What the manager does with a channel is what the channel's class
    does with its [ZmqSocketChannel] part. *)
Lemma sub_stop_on_base (H : Type) (s : Sub.SubSocketChannel H) :
  Sub.stop H s = Sub.on_base H (KM.stop SubClass) s.
Proof. reflexivity. Qed.

Lemma sub_run_on_base (H : Type) (s : Sub.SubSocketChannel H) :
  Sub.base (Sub.run H s) = KM.run SubClass (Sub.base s).
Proof. reflexivity. Qed.

Lemma xreq_stop_on_base (Sess H : Type) (s : XReq.XReqSocketChannel Sess H) :
  XReq.stop Sess H s = XReq.on_base Sess H (KM.stop XReqClass) s.
Proof. reflexivity. Qed.

Lemma xreq_run_on_base (Sess H : Type) (s : XReq.XReqSocketChannel Sess H) :
  XReq.base (XReq.run Sess H s) = KM.run XReqClass (XReq.base s).
Proof. reflexivity. Qed.

(** A channel that has run is running. *)
Lemma xreq_run_running (Sess H : Type) (s : XReq.XReqSocketChannel Sess H) :
  XReq.running Sess H (XReq.run Sess H s).
Proof. unfold XReq.running. simpl. eauto. Qed.

(** ** Listening *)

Section Manager.
Variable launch_kernel : Z -> Z -> Popen * Z * Z.

Local Abbreviation step := (KM.step launch_kernel).
Local Abbreviation reachable := (KM.reachable launch_kernel).
Local Abbreviation start_kernel := (KM.start_kernel launch_kernel).

Ltac km_unfold :=
  unfold KM.step, KM.start_listening, KM.stop_listening, KM.start_kernel,
    KM.set_kernel, KM.kill_kernel, KM.signal_kernel,
    KM.get_xreq_address, KM.get_sub_address, KM.set_xreq_address,
    KM.set_sub_address, KM.get_address, KM.set_address,
    KM.start_channel, KM.stop_channel, KM.on_channel, KM.channel,
    KM.perform, KM.start, KM.stop, KM.touch, KM.run_thread, KM.run,
    KM.exit_thread, socket_channel_stop,
    Channel.stop, Channel.set_adresss, Channel.get_address,
    Thread.start, Thread.join, Thread.is_alive,
    IOLoopOps.stop, IOLoopOps.on_ioloop, bind, get, modify, ret, raise.

Ltac split_ifs :=
  repeat match goal with
         | |- context [if ?b then _ else _] => destruct b; simpl
         | |- context [match ?p with pair _ _ => _ end] => destruct p; simpl
         end.

Ltac open_manager m :=
  destruct m as [listening kernel [[t1 a1 so1 [l1|] io1]|]
                   [[t2 a2 so2 [l2|] io2]|] [[t3 a3 so3 [l3|] io3]|] eff];
  try destruct t1; try destruct t2; try destruct t3; destruct listening.

Lemma step_consistent st m :
  KM.consistent m = true -> KM.consistent (step st m) = true.
Proof.
  intros Hc. open_manager m; simpl in Hc; try discriminate Hc; clear Hc;
    destruct st as [ | | |ker| |sig|k|k a|k|k]; try destruct k;
    try destruct kernel; km_unfold; simpl; split_ifs; reflexivity.
Qed.
Lemma reachable_consistent m : reachable m -> KM.consistent m = true.
Proof.
  induction 1 as [|st m _ IH]; [reflexivity|].
  now apply step_consistent.
Qed.

(** C5 as amended. [start_listening] on a listening manager raises the
    [RuntimeError] of a manager already listening and leaves the manager,
    its channels and their threads included, as it is. On a manager that is
    not listening and none of whose channel threads has been started yet,
    it returns with [is_listening] set, having started the thread of the
    broadcast channel, then of the request channel, then of the
    reverse-request channel, each of which is alive afterwards. *)
Theorem start_listening_spec (m : KernelManager) :
  (is_listening m = true ->
     KM.start_listening m
     = (Raise (RuntimeError "Cannot start listening. Already listening!"), m))
  /\ (is_listening m = false ->
      (forall k, KM.thread_of k m = Initial) ->
      exists m',
        KM.start_listening m = (Return tt, m')
        /\ is_listening m' = true
        /\ effects m'
           = effects m ++ [thread_started SubClass; thread_started XReqClass;
                           thread_started RepClass]
        /\ (forall k, KM.thread_of k m' = Alive)
        /\ (forall k, KM.address_of k m' = KM.address_of k m)
        /\ _kernel m' = _kernel m).
Proof.
  split.
  - intros Hl. unfold KM.start_listening, bind, get. now rewrite Hl.
  - intros Hl Ht.
    pose proof (Ht SubClass) as H1. pose proof (Ht XReqClass) as H2.
    pose proof (Ht RepClass) as H3. clear Ht.
    destruct m as [listening kernel [[t1 a1 so1 lo1 io1]|]
                     [[t2 a2 so2 lo2 io2]|] [[t3 a3 so3 lo3 io3]|] eff];
      unfold KM.thread_of in H1, H2, H3; simpl in Hl, H1, H2, H3; subst;
      km_unfold; simpl; eexists; (split; [reflexivity|]); simpl;
      rewrite <- ?app_assoc; simpl;
      (split; [reflexivity|]); (split; [reflexivity|]);
      (split; [intros []; reflexivity|]);
      (split; [intros []; reflexivity|]); reflexivity.
Qed.

(** X24. [stop_listening] on a manager that is not listening returns and
    leaves the manager as it is. On a listening manager whose three
    channel threads have been started and have executed [run], so that the
    two socket channels have their loops, it returns with [is_listening]
    cleared, having stopped the broadcast channel, then the request channel,
    then the reverse-request channel; each [stop] has returned, which it
    does when the thread has terminated, and no thread is alive
    afterwards. *)
Theorem stop_listening_spec (m : KernelManager) :
  (is_listening m = false -> KM.stop_listening m = (Return tt, m))
  /\ (is_listening m = true ->
      (forall k, KM.thread_of k m <> Initial) ->
      is_Some (KM.loop_of SubClass m) ->
      is_Some (KM.loop_of XReqClass m) ->
      KM.loop_of RepClass m = None ->
      exists m',
        KM.stop_listening m = (Return tt, m')
        /\ is_listening m' = false
        /\ effects m'
           = effects m ++ [channel_stopped SubClass; channel_stopped XReqClass;
                           channel_stopped RepClass]
        /\ (forall k, KM.thread_of k m' = Finished)
        /\ (forall k, KM.address_of k m' = KM.address_of k m)
        /\ _kernel m' = _kernel m).
Proof.
  split.
  - intros Hl. unfold KM.stop_listening, bind, get. now rewrite Hl.
  - intros Hl Ht [ls Hs] [lx Hx] Hrep.
    pose proof (Ht SubClass) as H1. pose proof (Ht XReqClass) as H2.
    pose proof (Ht RepClass) as H3. clear Ht.
    destruct m as [listening kernel [[t1 a1 so1 lo1 io1]|]
                     [[t2 a2 so2 lo2 io2]|] [[t3 a3 so3 lo3 io3]|] eff];
      unfold KM.thread_of, KM.loop_of in *; simpl in *; try congruence;
      subst; destruct t1, t2, t3; try congruence;
      km_unfold; simpl; eexists; (split; [reflexivity|]); simpl;
      rewrite <- ?app_assoc; simpl;
      (split; [reflexivity|]); (split; [reflexivity|]);
      (split; [intros []; reflexivity|]);
      (split; [intros []; reflexivity|]); reflexivity.
Qed.

(** C6. The claim fails on the code where [stop_listening] comes before
    the channel threads have executed [run]. On the manager
    [start_listening] leaves, which is listening and whose three threads
    are alive, the loop of the broadcast channel is still [None]:
    [stop_listening] clears [is_listening] and then raises the
    [AttributeError] of [self.ioloop.stop()], having stopped no channel;
    the three threads are still alive. *)
Theorem stop_listening_before_the_loops_exist :
  is_listening (snd (KM.start_listening KM.fresh)) = true
  /\ KM.loop_of SubClass (snd (KM.start_listening KM.fresh)) = None
  /\ exists m',
       KM.stop_listening (snd (KM.start_listening KM.fresh))
       = (Raise (AttributeError "stop"), m')
       /\ is_listening m' = false
       /\ effects m' = effects (snd (KM.start_listening KM.fresh))
       /\ (forall k, KM.thread_of k m' = Alive).
Proof.
  split; [reflexivity|]. split; [reflexivity|].
  eexists. split; [vm_compute; reflexivity|].
  split; [reflexivity|]. split; [reflexivity|]. intros []; reflexivity.
Qed.

Lemma touch_observed k (m : KernelManager) :
  is_listening (KM.touch k m) = is_listening m
  /\ _kernel (KM.touch k m) = _kernel m
  /\ effects (KM.touch k m) = effects m
  /\ (forall k', KM.address_of k' (KM.touch k m) = KM.address_of k' m)
  /\ (forall k', KM.thread_of k' (KM.touch k m) = KM.thread_of k' m).
Proof.
  destruct m as [listening kernel [c1|] [c2|] [c3|] eff], k; simpl;
    repeat split; intros []; reflexivity.
Qed.

(** C4 as amended. When the host of the request address or of the broadcast
    address is not the local host, [start_kernel] raises the [RuntimeError]
    of a launch that is not local, launches nothing, and leaves the kernel
    handle, the three addresses, the threads and [is_listening] as they
    were. When both hosts are the local host and neither the thread of the
    request channel nor that of the broadcast channel is alive, it returns
    having launched one kernel with the ports of the two addresses, holds
    the handle of that process, and the request and broadcast addresses are
    the local host with the ports the launch reported as bound. *)
Theorem start_kernel_spec (m : KernelManager) :
  (fst (KM.address_of XReqClass m) <> LOCALHOST
   \/ fst (KM.address_of SubClass m) <> LOCALHOST ->
   exists m',
     start_kernel m
     = (Raise (RuntimeError
          "Can only launch a kernel on localhost.Make sure that the '*_address' attributes are configured properly."),
        m')
     /\ m' = KM.touch SubClass (KM.touch XReqClass m)
     /\ effects m' = effects m
     /\ _kernel m' = _kernel m
     /\ is_listening m' = is_listening m
     /\ (forall k, KM.address_of k m' = KM.address_of k m)
     /\ (forall k, KM.thread_of k m' = KM.thread_of k m))
  /\ (fst (KM.address_of XReqClass m) = LOCALHOST ->
      fst (KM.address_of SubClass m) = LOCALHOST ->
      KM.thread_of XReqClass m <> Alive ->
      KM.thread_of SubClass m <> Alive ->
      forall kernel xrep pub,
        launch_kernel (snd (KM.address_of XReqClass m))
          (snd (KM.address_of SubClass m)) = (kernel, xrep, pub) ->
        exists m',
          start_kernel m = (Return tt, m')
          /\ effects m'
             = effects m ++ [launched (snd (KM.address_of XReqClass m))
                               (snd (KM.address_of SubClass m))]
          /\ _kernel m' = Some kernel
          /\ KM.address_of XReqClass m' = (LOCALHOST, xrep)
          /\ KM.address_of SubClass m' = (LOCALHOST, pub)
          /\ KM.address_of RepClass m' = KM.address_of RepClass m
          /\ is_listening m' = is_listening m).
Proof.
  split.
  - intros Hhost.
    exists (KM.touch SubClass (KM.touch XReqClass m)).
    destruct (touch_observed XReqClass m) as (Hl1 & Hk1 & He1 & Ha1 & Ht1).
    destruct (touch_observed SubClass (KM.touch XReqClass m))
      as (Hl2 & Hk2 & He2 & Ha2 & Ht2).
    split; [|repeat split; try congruence; intros k;
             rewrite ?Ha2, ?Ht2; auto].
    assert (Hb : negb (String.eqb (fst (KM.address_of XReqClass m)) LOCALHOST)
                 || negb (String.eqb (fst (KM.address_of SubClass m)) LOCALHOST)
                 = true).
    { destruct Hhost as [Hh|Hh]; apply String.eqb_neq in Hh; rewrite Hh;
        simpl; [reflexivity|apply orb_true_r]. }
    destruct m as [listening kernel [c1|] [c2|] c3 eff];
      unfold KM.address_of, Channel.get_address in Hb; simpl in Hb;
      try discriminate Hb; km_unfold; simpl;
      rewrite Hb; reflexivity.
  - intros Hx Hs Htx Hts kernel xrep pub Hlaunch.
    destruct m as [listening ker [[t1 [h1 p1] so1 lo1 io1]|]
                     [[t2 [h2 p2] so2 lo2 io2]|] c3 eff];
      unfold KM.thread_of, KM.address_of in Hx, Hs, Htx, Hts, Hlaunch;
      simpl in Hx, Hs, Htx, Hts, Hlaunch; subst;
      try (destruct t1; try congruence); try (destruct t2; try congruence);
      km_unfold; simpl; rewrite Hlaunch; simpl;
      eexists; (split; [reflexivity|]); simpl; repeat split.
Qed.
End Manager.

(** Witness of C5 as amended: a manager nothing has been done with. *)
Lemma start_listening_spec_witness :
  exists m',
    KM.start_listening KM.fresh = (Return tt, m')
    /\ is_listening m' = true
    /\ effects m'
       = [thread_started SubClass; thread_started XReqClass;
          thread_started RepClass]
    /\ (forall k, KM.thread_of k m' = Alive).
Proof.
  destruct (start_listening_spec KM.fresh) as [_ Hstart].
  destruct Hstart as (m' & E & Hl & He & Ht & _).
  - reflexivity.
  - intros []; reflexivity.
  - exists m'. split; [exact E|]. split; [exact Hl|].
    split; [exact He|exact Ht].
Defined.

(** Counterexample to C5 as stated: a manager that has listened and
    stopped is not listening, yet [start_listening] on it raises the
    [RuntimeError] of a thread started twice; it has set [is_listening] and
    started no thread. *)
Lemma start_listening_again_counterexample :
  let m := KM.step KM.example_launch KM.call_stop_listening
             (KM.step KM.example_launch (KM.thread_runs XReqClass)
                (KM.step KM.example_launch (KM.thread_runs SubClass)
                   (KM.step KM.example_launch KM.call_start_listening
                      KM.fresh))) in
  KM.reachable KM.example_launch m
  /\ is_listening m = false
  /\ fst (KM.start_listening m)
     = Raise (RuntimeError "threads can only be started once")
  /\ is_listening (snd (KM.start_listening m)) = true
  /\ effects (snd (KM.start_listening m)) = effects m
  /\ (forall k, KM.thread_of k (snd (KM.start_listening m)) = Finished).
Proof.
  intros m. split.
  - do 4 apply KM.reachable_step. apply KM.reachable_fresh.
  - repeat split; try (vm_compute; reflexivity).
    intros []; vm_compute; reflexivity.
Qed.

(** Witness of X24: a manager that has started listening and whose
    socket channels have run. *)
Lemma stop_listening_spec_witness :
  let m := KM.step KM.example_launch (KM.thread_runs XReqClass)
             (KM.step KM.example_launch (KM.thread_runs SubClass)
                (KM.step KM.example_launch KM.call_start_listening
                   KM.fresh)) in
  exists m',
    KM.stop_listening m = (Return tt, m')
    /\ is_listening m' = false
    /\ effects m'
       = effects m ++ [channel_stopped SubClass; channel_stopped XReqClass;
                       channel_stopped RepClass]
    /\ (forall k, KM.thread_of k m' = Finished).
Proof.
  intros m.
  destruct (stop_listening_spec m) as [_ Hstop].
  destruct Hstop as (m' & E & Hl & He & Ht & _).
  - reflexivity.
  - intros []; discriminate.
  - eexists; reflexivity.
  - eexists; reflexivity.
  - reflexivity.
  - exists m'. split; [exact E|]. split; [exact Hl|].
    split; [exact He|exact Ht].
Defined.

(** Witness of C4 as amended: a launch from a manager nothing has been
    done with, and a refusal after the request address was pointed at
    another host. *)
Lemma start_kernel_spec_witness :
  (exists m',
     KM.start_kernel KM.example_launch KM.fresh = (Return tt, m')
     /\ effects m' = [launched 0 0]
     /\ _kernel m' = Some {| pid := 4242 |}
     /\ KM.address_of XReqClass m' = (LOCALHOST, 5555)
     /\ KM.address_of SubClass m' = (LOCALHOST, 5556))
  /\ (let m := snd (KM.set_xreq_address (Some ("10.0.0.7"%string, 5555))
                     KM.fresh) in
      exists m',
        KM.start_kernel KM.example_launch m
        = (Raise (RuntimeError
             "Can only launch a kernel on localhost.Make sure that the '*_address' attributes are configured properly."),
           m')
        /\ effects m' = effects m
        /\ _kernel m' = _kernel m).
Proof.
  split.
  - destruct (start_kernel_spec KM.example_launch KM.fresh) as [_ Hlocal].
    destruct (Hlocal eq_refl eq_refl) with
      (kernel := {| pid := 4242 |}) (xrep := 5555) (pub := 5556)
      as (m' & E & He & Hk & Hx & Hs & _).
    + discriminate.
    + discriminate.
    + reflexivity.
    + exists m'. repeat split; assumption.
  - intros m.
    destruct (start_kernel_spec KM.example_launch m) as [Hremote _].
    destruct Hremote as (m' & E & _ & He & Hk & _).
    + left. discriminate.
    + exists m'. repeat split; assumption.
Defined.

(** Counterexample to C4 as stated: on a listening manager both hosts are
    the local host, yet [start_kernel] raises the [RuntimeError] of an
    address set on a running channel; the request address is not rewritten
    to the port bound. *)
Lemma start_kernel_listening_counterexample :
  let m := KM.step KM.example_launch KM.call_start_listening KM.fresh in
  let m' := snd (KM.start_kernel KM.example_launch m) in
  KM.reachable KM.example_launch m
  /\ fst (KM.address_of XReqClass m) = LOCALHOST
  /\ fst (KM.address_of SubClass m) = LOCALHOST
  /\ KM.example_launch (snd (KM.address_of XReqClass m))
       (snd (KM.address_of SubClass m))
     = ({| pid := 4242 |}, 5555, 5556)
  /\ fst (KM.start_kernel KM.example_launch m)
     = Raise (RuntimeError "Cannot set address on a running channel!")
  /\ KM.address_of XReqClass m' <> (LOCALHOST, 5555)
  /\ KM.address_of SubClass m' <> (LOCALHOST, 5556).
Proof.
  intros m m'. split.
  - apply KM.reachable_step, KM.reachable_fresh.
  - repeat split; try (vm_compute; reflexivity); vm_compute; discriminate.
Qed.


(** * Further properties *)

(** ** Interest and registration *)

Lemma lor_ldiff_absent i state :
  Z.land i state = 0 -> Z.land (Z.lor i state) (Z.lnot state) = i.
Proof.
  intros Hz. apply Z.bits_inj'. intros n Hn.
  rewrite Z.land_spec, Z.lor_spec, Z.lnot_spec by exact Hn.
  assert (Hb : Z.testbit (Z.land i state) n = false)
    by (rewrite Hz; apply Z.bits_0).
  rewrite Z.land_spec in Hb.
  destruct (Z.testbit i n), (Z.testbit state n); simpl in *; congruence.
Qed.

Lemma ldiff_lor_present i state :
  Z.land i state = state -> Z.lor (Z.land i (Z.lnot state)) state = i.
Proof.
  intros Hz. apply Z.bits_inj'. intros n Hn.
  rewrite Z.lor_spec, Z.land_spec, Z.lnot_spec by exact Hn.
  assert (Hb : Z.testbit (Z.land i state) n = Z.testbit state n)
    by now rewrite Hz.
  rewrite Z.land_spec in Hb.
  destruct (Z.testbit i n), (Z.testbit state n); simpl in *; congruence.
Qed.

(** X1. The two callbacks undo each other. When no bit of [state] is in
    the interest, adding [state] and then dropping it gives the interest
    back; when all of [state] is in the interest, dropping it and then
    adding it gives the interest back. *)
Theorem add_and_drop_undo_each_other (c : ZmqSocketChannel) (i state : Z) :
  iostate c = Some i ->
  (Z.land i state = 0 ->
     iostate (snd (Channel.run_drop_io_state_callback state
                     (snd (Channel.run_add_io_state_callback state c))))
     = Some i)
  /\ (Z.land i state = state ->
        iostate (snd (Channel.run_add_io_state_callback state
                        (snd (Channel.run_drop_io_state_callback state c))))
        = Some i).
Proof.
  intros Hi. split; intros Hs.
  - pose proof (add_iostate c i state Hi) as Hadd.
    rewrite Hs in Hadd. simpl in Hadd.
    rewrite (drop_iostate _ _ state Hadd).
    destruct (truthy (Z.land (Z.lor i state) state)) eqn:Ht.
    + now rewrite lor_ldiff_absent.
    + apply truthy_false in Ht. rewrite land_lor_same in Ht by exact Hs.
      subst state. now rewrite Z.lor_0_r.
  - pose proof (drop_iostate c i state Hi) as Hdrop.
    rewrite Hs in Hdrop.
    destruct (truthy state) eqn:Ht.
    + rewrite (add_iostate _ _ state Hdrop).
      rewrite land_lnot_same. simpl. now rewrite ldiff_lor_present.
    + rewrite (add_iostate _ _ state Hdrop).
      apply truthy_false in Ht. subst state.
      rewrite Z.land_0_r. simpl. now rewrite Z.lor_0_r.
Qed.

(** Witness of X1: writable interest on top of, and the read interest out
    of, the interest a socket channel starts with. *)
Lemma add_and_drop_undo_each_other_witness :
  let c := Loop.setup (Z.lor POLLERR POLLIN) KM.new_channel in
  iostate (snd (Channel.run_drop_io_state_callback POLLOUT
                  (snd (Channel.run_add_io_state_callback POLLOUT c))))
  = Some 5
  /\ iostate (snd (Channel.run_add_io_state_callback POLLIN
                     (snd (Channel.run_drop_io_state_callback POLLIN c))))
     = Some 5.
Proof.
  intros c.
  destruct (add_and_drop_undo_each_other c 5 POLLOUT eq_refl) as [H1 _].
  destruct (add_and_drop_undo_each_other c 5 POLLIN eq_refl) as [_ H2].
  split; [apply H1|apply H2]; reflexivity.
Defined.

Lemma run_callback_in_sync (cb : Callback) (c : ZmqSocketChannel) :
  in_sync c -> in_sync (snd (Loop.run_callback cb c)).
Proof.
  unfold in_sync.
  destruct c as [t a so [l|] [i|]], cb as [state|state]; simpl;
    unfold Channel.run_add_io_state_callback,
      Channel.run_drop_io_state_callback; simpl; auto;
    destruct (truthy (Z.land i state)); simpl; auto.
Qed.

(** X2. The loop watches the socket with the channel's interest, and
    keeps doing so. This holds when [run] has set the channel up, and
    posting a request for interest, running a posted callback of any flag,
    and running the oldest posted callback all preserve it: whenever a
    callback changes the interest, it registers the new interest. *)
Theorem registration_follows_interest (c : ZmqSocketChannel) (state : Z)
    (cb : Callback) :
  in_sync (Loop.setup state c)
  /\ (in_sync c ->
      in_sync (snd (Channel.add_io_state state c))
      /\ in_sync (snd (Channel.drop_io_state state c))
      /\ in_sync (snd (Loop.run_callback cb c))
      /\ in_sync (snd (Loop.run_next_callback c))).
Proof.
  split; [reflexivity|]. intros Hs.
  split; [|split; [|split]].
  - unfold in_sync in *. destruct c as [t a so [l|] [i|]]; simpl in *; auto.
  - unfold in_sync in *. destruct c as [t a so [l|] [i|]]; simpl in *; auto.
  - now apply run_callback_in_sync.
  - unfold Loop.run_next_callback.
    destruct (ioloop c) as [l|] eqn:Hl; [|exact Hs].
    destruct (loop_callbacks l) as [|cb' rest]; [exact Hs|].
    apply run_callback_in_sync.
    unfold in_sync in *. rewrite Hl in Hs. simpl.
    destruct (iostate c); auto.
Qed.

(** Witness of X2: a channel [run] has set up, asked for writable
    interest. *)
Lemma registration_follows_interest_witness :
  let c := Loop.setup (Z.lor POLLERR POLLIN) KM.new_channel in
  in_sync (snd (Loop.run_next_callback (snd (Channel.add_io_state POLLOUT c)))).
Proof.
  intros c.
  apply (registration_follows_interest
           (snd (Channel.add_io_state POLLOUT c)) 0
           (add_io_state_callback 0)).
  apply (registration_follows_interest c POLLOUT (add_io_state_callback 0)).
  apply (registration_follows_interest KM.new_channel (Z.lor POLLERR POLLIN)
           (add_io_state_callback 0)).
Defined.

(** X3. Asking for interest and having the loop run the request: on a
    channel whose loop has no callback waiting, [add_io_state(state)]
    followed by the loop running its oldest callback returns, leaves no
    callback waiting, and leaves the interest the callback computes, which
    contains [state] whenever no bit of [state] was in the interest
    before; the request itself changes neither the interest nor the
    registration. *)
Theorem add_io_state_takes_effect_on_loop (c : ZmqSocketChannel) l i
    (state : Z) :
  ioloop c = Some l -> loop_callbacks l = [] -> iostate c = Some i ->
  exists c1 c2,
    Channel.add_io_state state c = (Return tt, c1)
    /\ iostate c1 = Some i
    /\ (handler_events <$> ioloop c1) = Some (handler_events l)
    /\ Loop.run_next_callback c1 = (Return tt, c2)
    /\ (loop_callbacks <$> ioloop c2) = Some []
    /\ iostate c2
       = Some (if truthy (Z.land i state) then i else Z.lor i state)
    /\ (Z.land i state = 0 ->
        (handler_events <$> ioloop c2) = Some (Z.lor i state)
        /\ (handler_updates <$> ioloop c2)
           = Some (handler_updates l ++ [Z.lor i state])).
Proof.
  intros Hl Hcb Hi.
  destruct c as [t a so lo io]. simpl in Hl, Hi. subst lo io.
  destruct l as [cbs ev ups stopped]. simpl in Hcb. subst cbs.
  unfold Channel.add_io_state, IOLoopOps.add_callback, IOLoopOps.on_ioloop.
  cbn. eexists. exists (snd (Loop.run_next_callback
    (with_ioloop
       (Some {| loop_callbacks := [add_io_state_callback state];
                handler_events := ev; handler_updates := ups;
                loop_stopped := stopped |})
       {| thread := t; _address := a; socket := so;
          ioloop := Some {| loop_callbacks := []; handler_events := ev;
                            handler_updates := ups; loop_stopped := stopped |};
          iostate := Some i |}))).
  split; [reflexivity|]. cbn.
  split; [reflexivity|]. split; [reflexivity|].
  unfold Channel.run_add_io_state_callback. cbn.
  destruct (truthy (Z.land i state)) eqn:Ht; cbn;
    (split; [reflexivity|]); (split; [reflexivity|]);
    (split; [reflexivity|]).
  - intros Hz. apply truthy_true in Ht. contradiction.
  - intros _. split; reflexivity.
Qed.

(** Witness of X3: writable interest on a channel [run] has set up. *)
Lemma add_io_state_takes_effect_on_loop_witness :
  let c := Loop.setup (Z.lor POLLERR POLLIN) KM.new_channel in
  exists c1 c2,
    Channel.add_io_state POLLOUT c = (Return tt, c1)
    /\ Loop.run_next_callback c1 = (Return tt, c2)
    /\ iostate c2 = Some 7.
Proof.
  intros c.
  destruct (add_io_state_takes_effect_on_loop c
              {| loop_callbacks := []; handler_events := 5;
                 handler_updates := []; loop_stopped := false |}
              5 POLLOUT eq_refl eq_refl eq_refl)
    as (c1 & c2 & E1 & _ & _ & E2 & _ & Hio & _).
  exists c1, c2. split; [exact E1|]. split; [exact E2|exact Hio].
Defined.

(** ** The broadcast channel at the edges *)

Section BroadcastEdges.
Variable H : Type.
Variable call_handlers : Envelope -> M H unit.

Local Abbreviation Chan := (Sub.SubSocketChannel H).
Local Abbreviation recv_loop := (Sub.recv_loop H call_handlers).
Local Abbreviation _handle_recv := (Sub._handle_recv H call_handlers).
Local Abbreviation _handle_events := (Sub._handle_events H call_handlers).
Local Abbreviation all_return := (Sub.all_return H call_handlers).
Local Abbreviation handled := (Sub.handled H call_handlers).

(** The loop over a run of messages on which [call_handlers] returns goes
    on with what is behind them. *)
Lemma recv_loop_prefix (msgs : list Envelope) :
  forall (fuel : nat) (s : Chan) sock tail,
  socket (Sub.base s) = Some sock ->
  pending sock = map inl msgs ++ tail ->
  all_return msgs (Sub.handlers s) ->
  recv_loop (length msgs + fuel) s
  = recv_loop fuel
      {| Sub.base :=
           with_socket (Some {| pending := tail; wire := wire sock |})
             (Sub.base s);
         Sub.handlers := handled msgs (Sub.handlers s);
         Sub.dispatched := Sub.dispatched s ++ msgs |}.
Proof.
  induction msgs as [|msg rest IH]; intros fuel s sock tail Hso Hp Hret.
  - simpl in *. rewrite app_nil_r.
    destruct s as [[t a so lo io] h d], sock as [p w]. simpl in *.
    subst. reflexivity.
  - destruct Hret as (Hr1 & Hr2).
    cbn [length Nat.add]. rewrite recv_loop_step.
    unfold Sub.on_base, zoom, recv_json_noblock, on_socket.
    rewrite Hso, Hp. simpl.
    unfold bind at 1.
    unfold Sub.invoke_call_handlers at 1, bind, modify, zoom. simpl.
    destruct (call_handlers msg (Sub.handlers s)) as [o h1].
    simpl in Hr1, Hr2. subst o.
    erewrite IH; simpl; try reflexivity; try exact Hr2.
    rewrite <- app_assoc. reflexivity.
Qed.

Lemma handle_recv_prefix (msgs : list Envelope) (s : Chan) sock tail :
  socket (Sub.base s) = Some sock ->
  pending sock = map inl msgs ++ tail ->
  all_return msgs (Sub.handlers s) ->
  _handle_recv s
  = recv_loop (S (length tail))
      {| Sub.base :=
           with_socket (Some {| pending := tail; wire := wire sock |})
             (Sub.base s);
         Sub.handlers := handled msgs (Sub.handlers s);
         Sub.dispatched := Sub.dispatched s ++ msgs |}.
Proof.
  intros Hso Hp Hret. unfold Sub._handle_recv, Sub.available.
  rewrite Hso, Hp, length_app, length_map.
  replace (S (length msgs + length tail))
    with (length msgs + S (length tail))%nat by lia.
  now apply recv_loop_prefix.
Qed.

(** X4. [_handle_recv] takes every [ZMQError] of a receive for the end of
    what is available, whatever its errno: with messages waiting on which
    [call_handlers] returns, then a receive that raises a [ZMQError], it
    dispatches those messages in order and returns normally; the error is
    not reported, and what is behind it is left on the socket. *)
Theorem handle_recv_stops_at_any_zmq_error (msgs : list Envelope) (s : Chan)
    sock (errno : option Z) rest :
  socket (Sub.base s) = Some sock ->
  pending sock = map inl msgs ++ inr (ZMQError errno) :: rest ->
  all_return msgs (Sub.handlers s) ->
  exists s',
    _handle_recv s = (Return tt, s')
    /\ Sub.dispatched s' = Sub.dispatched s ++ msgs
    /\ Sub.available H s' = rest
    /\ Sub.handlers s' = handled msgs (Sub.handlers s).
Proof.
  intros Hso Hp Hret.
  rewrite (handle_recv_prefix msgs s sock _ Hso Hp Hret).
  rewrite recv_loop_step. eexists. split; [reflexivity|].
  simpl. auto.
Qed.

(** X5. A receive that raises anything but a [ZMQError] ends
    [_handle_recv] with that exception, after the messages before it have
    been dispatched. *)
Theorem handle_recv_passes_other_errors (msgs : list Envelope) (s : Chan)
    sock (e : Exception) rest :
  socket (Sub.base s) = Some sock ->
  pending sock = map inl msgs ++ inr e :: rest ->
  all_return msgs (Sub.handlers s) ->
  (forall errno, e <> ZMQError errno) ->
  exists s',
    _handle_recv s = (Raise e, s')
    /\ Sub.dispatched s' = Sub.dispatched s ++ msgs
    /\ Sub.available H s' = rest.
Proof.
  intros Hso Hp Hret Hne.
  rewrite (handle_recv_prefix msgs s sock _ Hso Hp Hret).
  rewrite recv_loop_step.
  destruct e as [m|m|errno|m|m|m];
    try (eexists; split; [reflexivity|]; simpl; auto).
  now destruct (Hne errno).
Qed.

(** X6. An exception raised by [call_handlers] ends [_handle_recv] with
    that exception, a [ZMQError] included: the message it was raised on
    has been taken off the socket and counts as dispatched, the messages
    behind it are left on the socket. *)
Theorem handle_recv_passes_handler_errors (msgs : list Envelope) (s : Chan)
    sock (bad : Envelope) rest (e : Exception) :
  socket (Sub.base s) = Some sock ->
  pending sock = map inl msgs ++ inl bad :: rest ->
  all_return msgs (Sub.handlers s) ->
  fst (call_handlers bad (handled msgs (Sub.handlers s))) = Raise e ->
  exists s',
    _handle_recv s = (Raise e, s')
    /\ Sub.dispatched s' = Sub.dispatched s ++ msgs ++ [bad]
    /\ Sub.available H s' = rest.
Proof.
  intros Hso Hp Hret He.
  rewrite (handle_recv_prefix msgs s sock _ Hso Hp Hret).
  rewrite recv_loop_step.
  unfold Sub.on_base, zoom, recv_json_noblock, on_socket. simpl.
  unfold bind at 1.
  unfold Sub.invoke_call_handlers at 1, bind, modify, zoom. simpl.
  destruct (call_handlers bad (handled msgs (Sub.handlers s))) as [o h1].
  simpl in He. subst o.
  eexists. split; [reflexivity|]. simpl.
  rewrite <- app_assoc. auto.
Qed.

(** The loop leaves everything of the channel but the entries waiting on
    its socket as it was. *)
Lemma recv_loop_frame (fuel : nat) : forall (s s' : Chan) o,
  recv_loop fuel s = (o, s') ->
  wire_of (Sub.base s') = wire_of (Sub.base s)
  /\ ioloop (Sub.base s') = ioloop (Sub.base s)
  /\ iostate (Sub.base s') = iostate (Sub.base s)
  /\ thread (Sub.base s') = thread (Sub.base s)
  /\ _address (Sub.base s') = _address (Sub.base s).
Proof.
  induction fuel as [|fuel IH]; intros s s' o.
  - simpl. intros [= <- <-]. auto.
  - rewrite recv_loop_step.
    destruct (Sub.on_base H recv_json_noblock s) as [o1 s1] eqn:E.
    assert (Hf : wire_of (Sub.base s1) = wire_of (Sub.base s)
                 /\ ioloop (Sub.base s1) = ioloop (Sub.base s)
                 /\ iostate (Sub.base s1) = iostate (Sub.base s)
                 /\ thread (Sub.base s1) = thread (Sub.base s)
                 /\ _address (Sub.base s1) = _address (Sub.base s)).
    { revert E. unfold Sub.on_base, zoom, recv_json_noblock, on_socket, wire_of.
      destruct s as [[t a [[p w]|] lo io] h d]; simpl.
      - destruct p as [|[m|e] p]; intros [= <- <-]; simpl; auto.
      - intros [= <- <-]. simpl. auto. }
    destruct o1 as [msg|e|].
    + unfold bind.
      unfold Sub.invoke_call_handlers at 1, bind, modify, zoom. simpl.
      destruct (call_handlers msg (Sub.handlers s1)) as [o2 h2].
      destruct o2; try (intros [= <- <-]; exact Hf).
      intros E2. apply IH in E2. simpl in E2.
      destruct Hf as (? & ? & ? & ? & ?), E2 as (? & ? & ? & ? & ?).
      repeat split; congruence.
    + destruct e; intros [= <- <-]; exact Hf.
    + intros [= <- <-]. exact Hf.
Qed.

(** X7. The broadcast channel's own code only receives. With a
    [call_handlers] that keeps to a state of its own and does not touch the
    channel, whatever readiness is reported, whatever waits on the socket
    and whatever the outcome of [call_handlers], [_handle_events] transmits
    nothing and leaves the loop, the interest, the thread and the address
    of the channel as they were. *)
Theorem broadcast_only_receives (events : Z) (s s' : Chan) o :
  _handle_events events s = (o, s') ->
  wire_of (Sub.base s') = wire_of (Sub.base s)
  /\ ioloop (Sub.base s') = ioloop (Sub.base s)
  /\ iostate (Sub.base s') = iostate (Sub.base s)
  /\ thread (Sub.base s') = thread (Sub.base s)
  /\ _address (Sub.base s') = _address (Sub.base s).
Proof.
  unfold Sub._handle_events, bind.
  destruct (truthy (Z.land events POLLERR)); simpl;
    [intros [= <- <-]; auto|].
  destruct (truthy (Z.land events POLLIN)); simpl;
    [|intros [= <- <-]; auto].
  unfold Sub._handle_recv. apply recv_loop_frame.
Qed.
End BroadcastEdges.


(** Witnesses of X4 to X7: a channel [run] has set up, with a handler that
    counts, and with the handler of the class itself. *)
Lemma handle_recv_stops_at_any_zmq_error_witness :
  let frame n :=
    {| header := {| msg_id := PyInt n; msg_type := "stream" |};
       content := ∅ |} in
  let sock := {| pending := [inl (frame 1); inr (ZMQError (Some 156384765));
                             inl (frame 2)];
                 wire := [] |} in
  let s := {| Sub.base := with_socket (Some sock)
                            (Loop.setup (Z.lor POLLIN POLLERR) KM.new_channel);
              Sub.handlers := O; Sub.dispatched := [] |} in
  exists s',
    Sub._handle_recv nat (fun _ => modify S) s = (Return tt, s')
    /\ Sub.dispatched s' = [frame 1]
    /\ Sub.available nat s' = [inl (frame 2)].
Proof.
  intros frame sock s.
  destruct (handle_recv_stops_at_any_zmq_error nat (fun _ => modify S)
              [frame 1] s sock (Some 156384765) [inl (frame 2)])
    as (s' & E & Hd & Ha & _).
  - reflexivity.
  - reflexivity.
  - simpl. auto.
  - exists s'. auto.
Defined.

Lemma handle_recv_passes_other_errors_witness :
  let frame n :=
    {| header := {| msg_id := PyInt n; msg_type := "stream" |};
       content := ∅ |} in
  let sock := {| pending := [inl (frame 1);
                             inr (OtherError "No JSON object could be decoded");
                             inl (frame 2)];
                 wire := [] |} in
  let s := {| Sub.base := with_socket (Some sock)
                            (Loop.setup (Z.lor POLLIN POLLERR) KM.new_channel);
              Sub.handlers := O; Sub.dispatched := [] |} in
  exists s',
    Sub._handle_recv nat (fun _ => modify S) s
    = (Raise (OtherError "No JSON object could be decoded"), s')
    /\ Sub.dispatched s' = [frame 1]
    /\ Sub.available nat s' = [inl (frame 2)].
Proof.
  intros frame sock s.
  destruct (handle_recv_passes_other_errors nat (fun _ => modify S)
              [frame 1] s sock
              (OtherError "No JSON object could be decoded") [inl (frame 2)])
    as (s' & E & Hd & Ha).
  - reflexivity.
  - reflexivity.
  - simpl. auto.
  - discriminate.
  - exists s'. auto.
Defined.

Lemma handle_recv_passes_handler_errors_witness :
  let frame n :=
    {| header := {| msg_id := PyInt n; msg_type := "stream" |};
       content := ∅ |} in
  let sock := {| pending := [inl (frame 1); inl (frame 2)]; wire := [] |} in
  let s := {| Sub.base := with_socket (Some sock)
                            (Loop.setup (Z.lor POLLIN POLLERR) KM.new_channel);
              Sub.handlers := tt; Sub.dispatched := [] |} in
  exists s',
    Sub._handle_recv unit call_handlers_undefined s
    = (Raise (NotImplementedError
                "call_handlers must be defined in a subclass."), s')
    /\ Sub.dispatched s' = [frame 1]
    /\ Sub.available unit s' = [inl (frame 2)].
Proof.
  intros frame sock s.
  destruct (handle_recv_passes_handler_errors unit call_handlers_undefined
              [] s sock (frame 1) [inl (frame 2)]
              (NotImplementedError
                 "call_handlers must be defined in a subclass."))
    as (s' & E & Hd & Ha).
  - reflexivity.
  - reflexivity.
  - exact I.
  - reflexivity.
  - exists s'. auto.
Defined.

Lemma broadcast_only_receives_witness :
  let frame n :=
    {| header := {| msg_id := PyInt n; msg_type := "stream" |};
       content := ∅ |} in
  let sock := {| pending := [inl (frame 1); inl (frame 2)];
                 wire := [frame 0] |} in
  let s := {| Sub.base := with_socket (Some sock)
                            (Loop.setup (Z.lor POLLIN POLLERR) KM.new_channel);
              Sub.handlers := O; Sub.dispatched := [] |} in
  wire_of (Sub.base (snd (Sub._handle_events nat (fun _ => modify S) POLLIN s)))
  = Some [frame 0].
Proof.
  intros frame sock s.
  destruct (Sub._handle_events nat (fun _ => modify S) POLLIN s)
    as [o s'] eqn:E.
  destruct (broadcast_only_receives nat (fun _ => modify S) POLLIN s s' o E)
    as (Hw & _).
  exact Hw.
Defined.

(** ** The request channel at the edges *)

Section RequestEdges.
Variable Sess : Type.
Variable new_id : Sess -> pyval * Sess.
Variable H : Type.
Variable call_handlers : Envelope -> M H unit.

Local Abbreviation Chan := (XReq.XReqSocketChannel Sess H).
Local Abbreviation transmitted := (XReq.transmitted Sess H).
Local Abbreviation running := (XReq.running Sess H).
Local Abbreviation play := (XReq.play Sess new_id H call_handlers).
Local Abbreviation occur := (XReq.occur Sess new_id H call_handlers).

(** X8. Error readiness comes first. When the events reported include
    [POLLERR], [_handle_events] of the broadcast channel and of the request
    channel raise the [ZMQError] of [_handle_err] and leave the channel
    wholly as it was: nothing is sent and nothing is received, whatever
    else the events include. *)
Theorem error_readiness_comes_first (events : Z)
    (sub : Sub.SubSocketChannel H) (xreq : Chan) :
  Z.land events POLLERR <> 0 ->
  Sub._handle_events H call_handlers events sub = (Raise (ZMQError None), sub)
  /\ XReq._handle_events Sess H call_handlers events xreq
     = (Raise (ZMQError None), xreq).
Proof.
  intros He. apply truthy_true in He.
  unfold Sub._handle_events, XReq._handle_events, bind.
  rewrite He. split; reflexivity.
Qed.

(** X9. The request channel receives one message per read event. With a
    message waiting on which [call_handlers] returns, [_handle_recv]
    dispatches that one message and leaves the ones behind it on the
    socket, the queue and the wire as they were; on a socket with nothing
    waiting it does not come back, having dispatched nothing. *)
Theorem request_channel_receives_one (s : Chan) sock :
  socket (XReq.base s) = Some sock ->
  (forall msg rest,
     pending sock = inl msg :: rest ->
     fst (call_handlers msg (XReq.handlers s)) = Return tt ->
     exists s',
       XReq._handle_recv Sess H call_handlers s = (Return tt, s')
       /\ XReq.dispatched s' = XReq.dispatched s ++ [msg]
       /\ (pending <$> socket (XReq.base s')) = Some rest
       /\ transmitted s' = transmitted s
       /\ XReq.command_queue s' = XReq.command_queue s)
  /\ (pending sock = [] ->
      exists s',
        XReq._handle_recv Sess H call_handlers s = (Blocked, s')
        /\ XReq.dispatched s' = XReq.dispatched s
        /\ transmitted s' = transmitted s
        /\ XReq.command_queue s' = XReq.command_queue s).
Proof.
  intros Hso. split.
  - intros msg rest Hp Hret.
    unfold XReq._handle_recv, bind, XReq.on_base, zoom, recv_json, on_socket.
    rewrite Hso, Hp. simpl.
    unfold XReq.invoke_call_handlers, bind, modify, zoom. simpl.
    destruct (call_handlers msg (XReq.handlers s)) as [o h1].
    simpl in Hret. subst o.
    eexists. split; [reflexivity|]. unfold XReq.transmitted. simpl.
    rewrite Hso. auto.
  - intros Hp.
    unfold XReq._handle_recv, bind, XReq.on_base, zoom, recv_json, on_socket.
    rewrite Hso, Hp. simpl.
    eexists. split; [reflexivity|]. unfold XReq.transmitted. simpl.
    rewrite Hso. auto.
Qed.

Lemma writable_event (s : Chan) :
  XReq._handle_events Sess H call_handlers POLLOUT s
  = (XReq._handle_send Sess H ;;; ret tt) s.
Proof. reflexivity. Qed.

(** X10. Writable events send the queue from its head: after [n] events
    that report writable readiness and nothing else, a running channel
    has transmitted the first [n] envelopes that waited, in their order,
    and the others still wait; with as many events as envelopes waited the
    queue is empty. *)
Theorem writable_events_send_from_the_head (n : nat) : forall s : Chan,
  running s ->
  let s' := fst (play (replicate n (XReq.ready POLLOUT)) s) in
  transmitted s' = transmitted s ++ take n (XReq.command_queue s)
  /\ XReq.command_queue s' = drop n (XReq.command_queue s)
  /\ running s'
  /\ (n = length (XReq.command_queue s) ->
      transmitted s' = transmitted s ++ XReq.command_queue s
      /\ XReq.command_queue s' = []).
Proof.
  induction n as [|n IH]; intros s Hrun; cbn zeta.
  - simpl. rewrite take_0, drop_0, app_nil_r.
    split; [reflexivity|]. split; [reflexivity|]. split; [exact Hrun|].
    intros Hn. symmetry in Hn. apply nil_length_inv in Hn.
    rewrite Hn, app_nil_r. auto.
  - cbn [replicate XReq.play XReq.occur].
    rewrite writable_event. unfold bind.
    destruct (handle_send_running Sess H s Hrun)
      as (s1 & E & Hw & Hq & _ & _ & _ & Hr1).
    rewrite E. cbn [snd ret].
    specialize (IH s1 Hr1). cbn zeta in IH.
    destruct (play (replicate n (XReq.ready POLLOUT)) s1) as [s2 ids] eqn:E2.
    cbn [fst] in IH |- *.
    destruct IH as (Hw2 & Hq2 & Hr2 & _).
    assert (Hwire : transmitted s2
                    = transmitted s ++ take (S n) (XReq.command_queue s)).
    { rewrite Hw2, Hw, Hq, <- app_assoc. f_equal.
      destruct (XReq.command_queue s); simpl; [now rewrite take_nil|].
      now rewrite drop_0. }
    assert (Hqueue : XReq.command_queue s2
                     = drop (S n) (XReq.command_queue s)).
    { rewrite Hq2, Hq. destruct (XReq.command_queue s); simpl;
        [now rewrite drop_nil|now rewrite drop_0]. }
    split; [exact Hwire|]. split; [exact Hqueue|]. split; [exact Hr2|].
    intros Hn. rewrite Hwire, Hqueue, Hn.
    rewrite firstn_all, drop_all. auto.
Qed.

(** X11. On a channel whose loop does not exist yet, that is before the
    thread has run, a request raises the [AttributeError] of [add_callback]
    on [None] instead of returning an id; by then the session has built
    the envelope, consuming an id, and the envelope waits in the queue. *)
Theorem request_before_run (r : XReq.Request) (s : Chan) :
  ioloop (XReq.base s) = None ->
  exists s',
    XReq.request Sess new_id H r s = (Raise (AttributeError "add_callback"), s')
    /\ XReq.command_queue s'
       = XReq.command_queue s
         ++ [ {| header := {| msg_id := fst (new_id (XReq.session s));
                              msg_type := XReq.type_of r |};
                 content := XReq.body_of r |} ]
    /\ XReq.session s' = snd (new_id (XReq.session s))
    /\ XReq.base s' = XReq.base s.
Proof.
  intros Hl. rewrite request_unfold.
  unfold bind at 1. unfold XReq.on_session, zoom, session_msg.
  destruct (new_id (XReq.session s)) as [i x'].
  unfold bind at 1.
  unfold XReq._queue_request, bind, modify, XReq.on_base, zoom,
    Channel.add_io_state, IOLoopOps.add_callback, IOLoopOps.on_ioloop.
  simpl. rewrite Hl. eexists. split; [reflexivity|]. simpl.
  destruct s as [[t a so lo io] q x h d]. simpl in *. subst lo.
  repeat split.
Qed.
End RequestEdges.

(** ** The interest of a request channel over its life *)

Ltac steady_open c Hs :=
  destruct Hs as ([sock Hsock] & Hio & Hsync & (l & Hl & Hcbs));
  destruct c as [t a so lo io]; simpl in Hsock, Hio, Hl; subst so lo;
  unfold in_sync in Hsync; simpl in Hsync;
  destruct Hio as [Hio|Hio]; subst io.

Ltac steady_close :=
  unfold steady_interest, in_sync; simpl;
  repeat match goal with
         | |- _ /\ _ => split
         | |- is_Some (Some _) => eexists; reflexivity
         | |- exists l, Some _ = Some l /\ _ => eexists; split; [reflexivity|]
         end; simpl; auto.

Lemma steady_setup (c : ZmqSocketChannel) :
  steady_interest (Loop.setup (Z.lor POLLERR POLLIN) c).
Proof. steady_close. Qed.

Lemma steady_post (cb : Callback) (c : ZmqSocketChannel) :
  steady_interest c -> about_pollout cb ->
  steady_interest (snd (IOLoopOps.add_callback cb c)).
Proof.
  intros Hs Hcb. steady_open c Hs;
    unfold IOLoopOps.add_callback, IOLoopOps.on_ioloop; simpl;
    steady_close; apply Forall_app; split; auto.
Qed.

Lemma steady_socket (f : Socket -> Socket) (c : ZmqSocketChannel) :
  steady_interest c ->
  steady_interest (with_socket (f <$> socket c) c).
Proof. intros Hs. steady_open c Hs; steady_close. Qed.

Lemma steady_next (c : ZmqSocketChannel) :
  steady_interest c -> steady_interest (snd (Loop.run_next_callback c)).
Proof.
  intros Hs. pose proof Hs as Hs'. steady_open c Hs;
    unfold Loop.run_next_callback; simpl;
    destruct l as [[|cb rest] ev ups stopped]; simpl in *;
    try exact Hs';
    apply Forall_cons in Hcbs as [Hcb Hrest];
    destruct Hcb as [->| ->]; subst ev; simpl; steady_close.
Qed.

Section InterestOverLife.
Variable Sess : Type.
Variable new_id : Sess -> pyval * Sess.
Variable H : Type.
Variable call_handlers : Envelope -> M H unit.

Local Abbreviation Chan := (XReq.XReqSocketChannel Sess H).
Local Abbreviation play := (XReq.play Sess new_id H call_handlers).
Local Abbreviation occur := (XReq.occur Sess new_id H call_handlers).

Lemma steady_handle_send (s : Chan) :
  steady_interest (XReq.base s) ->
  steady_interest (XReq.base (snd (XReq._handle_send Sess H s))).
Proof.
  intros Hs. destruct s as [c q x h d]. simpl in Hs.
  steady_open c Hs;
    unfold XReq._handle_send, bind, get, XReq.on_base, zoom, send_json,
      on_socket, Channel.drop_io_state, IOLoopOps.add_callback,
      IOLoopOps.on_ioloop;
    destruct q as [|msg [|msg' rest]]; simpl; steady_close;
    apply Forall_app; split; auto; repeat constructor; right; reflexivity.
Qed.

Lemma steady_handle_recv (s : Chan) :
  steady_interest (XReq.base s) ->
  steady_interest
    (XReq.base (snd (XReq._handle_recv Sess H call_handlers s))).
Proof.
  intros Hs. destruct s as [c q x h d]. simpl in Hs.
  steady_open c Hs;
    unfold XReq._handle_recv, bind, XReq.on_base, zoom, recv_json, on_socket;
    simpl; destruct sock as [[|[msg|e] rest] w]; simpl; try steady_close;
    unfold XReq.invoke_call_handlers, bind, modify, zoom; simpl;
    destruct (call_handlers msg h) as [[| |] h1]; simpl; steady_close.
Qed.

Lemma steady_handle_events (events : Z) (s : Chan) :
  steady_interest (XReq.base s) ->
  steady_interest
    (XReq.base (snd (XReq._handle_events Sess H call_handlers events s))).
Proof.
  intros Hs. unfold XReq._handle_events, bind.
  destruct (truthy (Z.land events POLLERR)); simpl; [exact Hs|].
  assert (Hsend : steady_interest
    (XReq.base (snd ((if truthy (Z.land events POLLOUT)
                      then XReq._handle_send Sess H else ret tt) s)))).
  { destruct (truthy (Z.land events POLLOUT));
      [now apply steady_handle_send|exact Hs]. }
  destruct ((if truthy (Z.land events POLLOUT)
             then XReq._handle_send Sess H else ret tt) s) as [[| |] s1];
    simpl in Hsend |- *; try exact Hsend.
  destruct (truthy (Z.land events POLLIN)); simpl;
    [now apply steady_handle_recv|exact Hsend].
Qed.

Lemma steady_occur (e : XReq.Event) (s : Chan) :
  steady_interest (XReq.base s) ->
  steady_interest (XReq.base (fst (occur e s))).
Proof.
  intros Hs. destruct e as [r|events| |entry|type body]; simpl.
  - pose proof Hs as (_ & _ & _ & (l & Hl & _)).
    rewrite (request_effect Sess new_id H r s l Hl). simpl.
    pose proof (steady_post (add_io_state_callback POLLOUT) _ Hs
                  (or_introl eq_refl)) as Hp.
    unfold IOLoopOps.add_callback, IOLoopOps.on_ioloop in Hp.
    rewrite Hl in Hp. exact Hp.
  - now apply steady_handle_events.
  - unfold XReq.on_base, zoom.
    pose proof (steady_next _ Hs) as Hn.
    destruct (Loop.run_next_callback (XReq.base s)). exact Hn.
  - pose proof Hs as ([sock Hsock] & _).
    pose proof (steady_socket
      (fun k => {| pending := pending k ++ [entry]; wire := wire k |})
      _ Hs) as Hd.
    unfold XReq.deliver. rewrite Hsock in Hd |- *. exact Hd.
  - unfold XReq.on_session, zoom, session_msg.
    destruct (new_id (XReq.session s)). exact Hs.
Qed.

(** X12. Over the whole life of a request channel its own code lets only
    writable interest come and go. With a [call_handlers] that keeps to a
    state of its own and does not touch the channel, from the state [run]
    sets up, after any history of requests, readiness events, callbacks,
    arrivals and other uses of the session: the interest is reading and
    errors, with or without writing; the loop watches the socket with
    exactly that interest; and every callback waiting asks for or gives up
    writable interest. *)
Theorem only_writable_interest_changes (es : list XReq.Event) (s : Chan) :
  steady_interest (XReq.base (fst (play es (XReq.run Sess H s)))).
Proof.
  assert (Hgen : forall (es : list XReq.Event) (s : Chan),
             steady_interest (XReq.base s) ->
             steady_interest (XReq.base (fst (play es s)))).
  { clear es s. induction es as [|e es IH]; intros s Hs; [exact Hs|].
    cbn [XReq.play].
    pose proof (steady_occur e s Hs) as H1.
    destruct (occur e s) as [s1 ids1]. simpl in H1.
    specialize (IH s1 H1).
    destruct (play es s1) as [s2 ids2]. exact IH. }
  apply Hgen. apply steady_setup.
Qed.
End InterestOverLife.

(** Witnesses of X8 to X11, on a request channel with a counting session
    and a handler that counts. *)
Lemma error_readiness_comes_first_witness :
  let sub := {| Sub.base := Loop.setup (Z.lor POLLIN POLLERR) KM.new_channel;
                Sub.handlers := O; Sub.dispatched := [] |} in
  let xreq := XReq.run Z nat
                {| XReq.base := KM.new_channel; XReq.command_queue := [];
                   XReq.session := 0; XReq.handlers := O;
                   XReq.dispatched := [] |} in
  Sub._handle_events nat (fun _ => modify S) (Z.lor POLLERR POLLIN) sub
  = (Raise (ZMQError None), sub)
  /\ XReq._handle_events Z nat (fun _ => modify S)
       (Z.lor POLLERR POLLOUT) xreq
     = (Raise (ZMQError None), xreq).
Proof.
  intros sub xreq. split.
  - apply (error_readiness_comes_first Z nat (fun _ => modify S)
             (Z.lor POLLERR POLLIN) sub xreq). discriminate.
  - apply (error_readiness_comes_first Z nat (fun _ => modify S)
             (Z.lor POLLERR POLLOUT) sub xreq). discriminate.
Defined.

Lemma request_channel_receives_one_witness :
  let frame n :=
    {| header := {| msg_id := PyInt n; msg_type := "execute_reply" |};
       content := ∅ |} in
  let sock := {| pending := [inl (frame 1); inl (frame 2)]; wire := [] |} in
  let s := {| XReq.base := with_socket (Some sock)
                             (Loop.setup (Z.lor POLLERR POLLIN) KM.new_channel);
              XReq.command_queue := []; XReq.session := 0;
              XReq.handlers := O; XReq.dispatched := [] |} in
  exists s',
    XReq._handle_recv Z nat (fun _ => modify S) s = (Return tt, s')
    /\ XReq.dispatched s' = [frame 1]
    /\ (pending <$> socket (XReq.base s')) = Some [inl (frame 2)].
Proof.
  intros frame sock s.
  destruct (request_channel_receives_one Z nat (fun _ => modify S) s sock
              eq_refl) as [Hone _].
  destruct (Hone (frame 1) [inl (frame 2)] eq_refl eq_refl)
    as (s' & E & Hd & Hp & _).
  exists s'. auto.
Defined.

Lemma writable_events_send_from_the_head_witness :
  let envelope n :=
    {| header := {| msg_id := PyInt n; msg_type := "execute_request" |};
       content := ∅ |} in
  let s := {| XReq.base := Loop.setup (Z.lor POLLERR POLLIN) KM.new_channel;
              XReq.command_queue := [envelope 1; envelope 2; envelope 3];
              XReq.session := 4; XReq.handlers := O;
              XReq.dispatched := [] |} in
  let s' := fst (XReq.play Z counter_new_id nat (fun _ => modify S)
                   (replicate 2 (XReq.ready POLLOUT)) s) in
  XReq.transmitted Z nat s' = [envelope 1; envelope 2]
  /\ XReq.command_queue s' = [envelope 3].
Proof.
  intros envelope s s'.
  destruct (writable_events_send_from_the_head Z counter_new_id nat
              (fun _ => modify S) 2 s) as (Hw & Hq & _).
  - unfold XReq.running. simpl. eauto.
  - split; [exact Hw|exact Hq].
Defined.

Lemma request_before_run_witness :
  let s := {| XReq.base := KM.new_channel; XReq.command_queue := [];
              XReq.session := 7; XReq.handlers := O;
              XReq.dispatched := [] |} in
  exists s',
    XReq.request Z counter_new_id nat
      (XReq.Execute (PyStr "x=1") PyNone) s
    = (Raise (AttributeError "add_callback"), s')
    /\ length (XReq.command_queue s') = 1%nat
    /\ XReq.session s' = 8.
Proof.
  intros s.
  destruct (request_before_run Z counter_new_id nat
              (XReq.Execute (PyStr "x=1") PyNone) s eq_refl)
    as (s' & E & Hq & Hx & _).
  exists s'. split; [exact E|]. split; [now rewrite Hq|exact Hx].
Defined.

(** ** The manager at the edges *)

Ltac km_run :=
  unfold KM.step, KM.start_listening, KM.stop_listening, KM.start_kernel,
    KM.set_kernel, KM.kill_kernel, KM.signal_kernel,
    KM.get_xreq_address, KM.get_sub_address, KM.set_xreq_address,
    KM.set_sub_address, KM.get_address, KM.set_address,
    KM.start_channel, KM.stop_channel, KM.on_channel, KM.channel,
    KM.perform, KM.start, KM.stop, KM.touch, KM.run_thread, KM.run,
    KM.exit_thread, socket_channel_stop,
    Channel.stop, Channel.set_adresss, Channel.get_address,
    Thread.start, Thread.join, Thread.is_alive,
    IOLoopOps.stop, IOLoopOps.on_ioloop, bind, get, modify, ret, raise.

Ltac km_cases :=
  repeat match goal with
         | |- context [if ?b then _ else _] => destruct b; simpl
         | |- context [match ?p with pair _ _ => _ end] => destruct p; simpl
         end.

Ltac km_observe :=
  unfold KM.address_of, KM.thread_of, KM.loop_of, KM.channel_of,
    Channel.get_address in *; simpl in *.

(** X13. The channel properties construct once. Accessing a channel
    that exists returns it and changes nothing; accessing one that does not
    exist yet stores a channel with the default address whose thread has
    not started and has no socket, loop or interest, and leaves the rest of
    the manager as it was. A second access returns the same channel and
    changes nothing, and accesses to two channels can be made in either
    order. *)
Theorem channel_properties_construct_once (k k' : ChannelClass)
    (m : KernelManager) :
  (forall c, KM.channel_of k m = Some c -> KM.channel k m = (Return c, m))
  /\ (KM.channel_of k m = None ->
      exists c,
        KM.channel k m = (Return c, KM.touch k m)
        /\ KM.channel_of k (KM.touch k m) = Some c
        /\ Channel.get_address c = (LOCALHOST, 0)
        /\ thread c = Initial
        /\ socket c = None /\ ioloop c = None /\ iostate c = None)
  /\ KM.channel k (KM.touch k m) = (fst (KM.channel k m), KM.touch k m)
  /\ KM.touch k (KM.touch k' m) = KM.touch k' (KM.touch k m)
  /\ (k' <> k -> KM.channel_of k' (KM.touch k m) = KM.channel_of k' m)
  /\ is_listening (KM.touch k m) = is_listening m
  /\ _kernel (KM.touch k m) = _kernel m
  /\ effects (KM.touch k m) = effects m.
Proof.
  destruct m as [listening kernel c1 c2 c3 eff].
  split; [|split; [|split; [|split; [|split]]]].
  - intros c Hc. unfold KM.channel. rewrite Hc. reflexivity.
  - intros Hc. unfold KM.touch, KM.channel. rewrite Hc.
    eexists. split; [reflexivity|]. destruct k; simpl; repeat split.
  - destruct k, c1, c2, c3; reflexivity.
  - destruct k, k', c1, c2, c3; reflexivity.
  - intros Hne. destruct k, k', c1, c2, c3; try reflexivity; congruence.
  - destruct k, c1, c2, c3; repeat split.
Qed.

(** Witness of X13: the request channel of a manager nothing has been
    done with. *)
Lemma channel_properties_construct_once_witness :
  exists c,
    KM.channel XReqClass KM.fresh = (Return c, KM.touch XReqClass KM.fresh)
    /\ Channel.get_address c = (LOCALHOST, 0)
    /\ thread c = Initial.
Proof.
  destruct (channel_properties_construct_once XReqClass SubClass KM.fresh)
    as (_ & Hnew & _).
  destruct (Hnew eq_refl) as (c & E & _ & Ha & Ht & _).
  exists c. auto.
Defined.

(** X14. The address delegates of the manager. On a channel whose thread
    is not alive, setting an address through the manager returns; the
    getter of the manager then returns that address and changes nothing
    further; the addresses of the other channels, the threads, the kernel
    handle, [is_listening] and the effects are as before. *)
Theorem manager_address_round_trip (k : ChannelClass) (a : Address)
    (m : KernelManager) :
  KM.thread_of k m <> Alive ->
  exists m1,
    KM.set_address k (Some a) m = (Return tt, m1)
    /\ KM.get_address k m1 = (Return a, m1)
    /\ KM.address_of k m1 = a
    /\ (forall k', k' <> k -> KM.address_of k' m1 = KM.address_of k' m)
    /\ (forall k', KM.thread_of k' m1 = KM.thread_of k' m)
    /\ is_listening m1 = is_listening m
    /\ _kernel m1 = _kernel m
    /\ effects m1 = effects m.
Proof.
  intros Ht.
  destruct m as [listening kernel [[t1 a1 so1 lo1 io1]|]
                   [[t2 a2 so2 lo2 io2]|] [[t3 a3 so3 lo3 io3]|] eff];
    destruct k; km_observe;
    try destruct t1; try destruct t2; try destruct t3; try congruence;
    km_run; simpl; eexists; (split; [reflexivity|]); simpl;
    (split; [reflexivity|]); (split; [reflexivity|]);
    (split; [intros [] Hne; try reflexivity; congruence|]);
    (split; [intros []; reflexivity|]); repeat split.
Qed.

(** Witness of X14: the broadcast address of a manager nothing has been
    done with. *)
Lemma manager_address_round_trip_witness :
  exists m1,
    KM.set_address SubClass (Some ("10.0.0.7"%string, 5556)) KM.fresh
    = (Return tt, m1)
    /\ KM.get_address SubClass m1 = (Return ("10.0.0.7"%string, 5556), m1).
Proof.
  destruct (manager_address_round_trip SubClass ("10.0.0.7"%string, 5556)
              KM.fresh) as (m1 & E & Hg & _).
  - discriminate.
  - exists m1. auto.
Defined.

(** X15. While the thread of a channel is alive the manager refuses a
    new address for it: the setter raises the [RuntimeError] of a running
    channel and the manager is wholly as it was. *)
Theorem manager_address_frozen_while_alive (k : ChannelClass)
    (a : option Address) (m : KernelManager) :
  KM.thread_of k m = Alive ->
  KM.set_address k a m
  = (Raise (RuntimeError "Cannot set address on a running channel!"), m).
Proof.
  intros Ht.
  destruct m as [listening kernel [[t1 a1 so1 lo1 io1]|]
                   [[t2 a2 so2 lo2 io2]|] [[t3 a3 so3 lo3 io3]|] eff];
    destruct k; km_observe; try discriminate Ht; subst;
    reflexivity.
Qed.

(** Witness of X15: the request address of a manager that listens. *)
Lemma manager_address_frozen_while_alive_witness :
  let m := snd (KM.start_listening KM.fresh) in
  KM.set_address XReqClass (Some (LOCALHOST, 5555)) m
  = (Raise (RuntimeError "Cannot set address on a running channel!"), m).
Proof.
  intros m.
  apply (manager_address_frozen_while_alive XReqClass
           (Some (LOCALHOST, 5555)) m).
  reflexivity.
Defined.

Section ManagerEdges.
Variable launch_kernel : Z -> Z -> Popen * Z * Z.

Local Abbreviation start_kernel := (KM.start_kernel launch_kernel).
Local Abbreviation reachable := (KM.reachable launch_kernel).

(** X16. [start_kernel] on local hosts while a channel thread is alive.
    The kernel is launched and its handle recorded before the addresses
    are set, so when the thread of the request channel is alive the call
    raises the [RuntimeError] of a running channel with the process
    launched, the handle held and every address as it was; and when only
    the thread of the broadcast channel is alive it raises with the request
    address already rewritten and the broadcast address as it was. *)
Theorem start_kernel_while_a_thread_is_alive (m : KernelManager)
    (kernel : Popen) (xrep pub : Z) :
  fst (KM.address_of XReqClass m) = LOCALHOST ->
  fst (KM.address_of SubClass m) = LOCALHOST ->
  launch_kernel (snd (KM.address_of XReqClass m))
    (snd (KM.address_of SubClass m)) = (kernel, xrep, pub) ->
  (KM.thread_of XReqClass m = Alive ->
     exists m',
       start_kernel m
       = (Raise (RuntimeError "Cannot set address on a running channel!"), m')
       /\ effects m'
          = effects m ++ [launched (snd (KM.address_of XReqClass m))
                            (snd (KM.address_of SubClass m))]
       /\ _kernel m' = Some kernel
       /\ (forall k, KM.address_of k m' = KM.address_of k m))
  /\ (KM.thread_of XReqClass m <> Alive ->
      KM.thread_of SubClass m = Alive ->
      exists m',
        start_kernel m
        = (Raise (RuntimeError "Cannot set address on a running channel!"), m')
        /\ effects m'
           = effects m ++ [launched (snd (KM.address_of XReqClass m))
                             (snd (KM.address_of SubClass m))]
        /\ _kernel m' = Some kernel
        /\ KM.address_of XReqClass m' = (LOCALHOST, xrep)
        /\ KM.address_of SubClass m' = KM.address_of SubClass m).
Proof.
  intros Hx Hs Hlaunch. split.
  - intros Htx.
    destruct m as [listening ker [[t1 [h1 p1] so1 lo1 io1]|]
                     [[t2 [h2 p2] so2 lo2 io2]|] c3 eff];
      km_observe; try discriminate Htx; subst;
      km_run; simpl; rewrite Hlaunch; simpl;
      eexists; (split; [reflexivity|]); simpl;
      (split; [reflexivity|]); (split; [reflexivity|]);
      intros []; reflexivity.
  - intros Htx Hts.
    destruct m as [listening ker [[t1 [h1 p1] so1 lo1 io1]|]
                     [[t2 [h2 p2] so2 lo2 io2]|] c3 eff];
      km_observe; try discriminate Hts; subst;
      try (destruct t2; try congruence);
      km_run; simpl; rewrite Hlaunch; simpl;
      eexists; (split; [reflexivity|]); simpl; repeat split.
Qed.

(** X17. [start_kernel] only ever launches. Whatever the manager, the
    call adds to the effects nothing or one launch: it kills and signals no
    process, also when a handle is already held, and it starts and stops no
    thread; [is_listening] and the threads are as before. *)
Theorem start_kernel_only_launches (m : KernelManager) :
  let m' := snd (start_kernel m) in
  (effects m' = effects m
   \/ effects m'
      = effects m ++ [launched (snd (KM.address_of XReqClass m))
                        (snd (KM.address_of SubClass m))])
  /\ is_listening m' = is_listening m
  /\ (forall k, KM.thread_of k m' = KM.thread_of k m).
Proof.
  cbn zeta.
  destruct m as [listening ker [[t1 [h1 p1] so1 lo1 io1]|]
                   [[t2 [h2 p2] so2 lo2 io2]|] c3 eff];
    km_observe; km_run; simpl; km_cases;
    (split; [auto|]); (split; [reflexivity|]); intros []; reflexivity.
Qed.

(** X18. Listening and the kernel process do not touch each other.
    [start_listening] and [stop_listening] leave the kernel handle as it
    is and add to the effects only threads started and channels stopped;
    [set_kernel], [kill_kernel] and [signal_kernel] leave [is_listening]
    and the three channels as they are. *)
Theorem listening_and_kernel_are_apart (m : KernelManager)
    (kernel : option Popen) (signum : Z) :
  (forall m', m' = snd (KM.start_listening m) \/ m' = snd (KM.stop_listening m) ->
     _kernel m' = _kernel m
     /\ exists more,
          effects m' = effects m ++ more
          /\ Forall (fun e => exists k,
                       e = thread_started k \/ e = channel_stopped k) more)
  /\ (forall m', m' = snd (KM.set_kernel kernel m)
                 \/ m' = snd (KM.kill_kernel m)
                 \/ m' = snd (KM.signal_kernel signum m) ->
        is_listening m' = is_listening m
        /\ _sub_channel m' = _sub_channel m
        /\ _xreq_channel m' = _xreq_channel m
        /\ _rep_channel m' = _rep_channel m).
Proof.
  split.
  - intros m' Hm'. split.
    + destruct Hm' as [-> | ->];
        destruct m as [listening ker [[t1 a1 so1 [l1|] io1]|]
                         [[t2 a2 so2 [l2|] io2]|] [[t3 a3 so3 [l3|] io3]|] eff];
        try destruct t1; try destruct t2; try destruct t3; destruct listening;
        km_run; simpl; km_cases; reflexivity.
    + destruct Hm' as [-> | ->];
        destruct m as [listening ker [[t1 a1 so1 [l1|] io1]|]
                         [[t2 a2 so2 [l2|] io2]|] [[t3 a3 so3 [l3|] io3]|] eff];
        try destruct t1; try destruct t2; try destruct t3; destruct listening;
        km_run; simpl; km_cases; rewrite <- ?app_assoc; simpl;
        first [ exists []; split; [symmetry; apply app_nil_r|constructor]
              | eexists; split; [reflexivity|]; repeat constructor; eauto ].
  - intros m' [-> | [-> | ->]];
      destruct m as [listening [ker|] c1 c2 c3 eff]; repeat split.
Qed.
End ManagerEdges.

Section ManagerLife.
Variable launch_kernel : Z -> Z -> Popen * Z * Z.

Local Abbreviation reachable := (KM.reachable launch_kernel).

(** X19. What every state has that a manager gets into through its
    methods and through its threads running and ending: the threads of the
    three channels have all been started or none has; they have been
    started when the manager is listening; the reverse-request channel
    has no loop; and a channel that has a loop has a thread that has been
    started. *)
Theorem manager_threads_go_together (m : KernelManager) :
  reachable m ->
  ((forall k, KM.thread_of k m = Initial)
   \/ (forall k, KM.thread_of k m <> Initial))
  /\ (is_listening m = true -> forall k, KM.thread_of k m <> Initial)
  /\ KM.loop_of RepClass m = None
  /\ (forall k, is_Some (KM.loop_of k m) -> KM.thread_of k m <> Initial).
Proof.
  intros Hr. apply reachable_consistent in Hr.
  destruct m as [listening kernel [[t1 a1 so1 [l1|] io1]|]
                   [[t2 a2 so2 [l2|] io2]|] [[t3 a3 so3 [l3|] io3]|] eff];
    try destruct t1; try destruct t2; try destruct t3; destruct listening;
    simpl in Hr; try discriminate Hr; clear Hr; km_observe;
    (split; [first [left; intros []; reflexivity
                   |right; intros []; discriminate]|]);
    (split; [first [discriminate|intros _ []; discriminate]|]);
    (split; [reflexivity|]);
    intros [] [l Hl]; simpl in Hl |- *; congruence.
Qed.

(** X20. A manager listens once. On a manager that is not listening but
    whose broadcast thread has been started before, [start_listening]
    raises the [RuntimeError] of a thread started twice; it has set
    [is_listening], so that the manager reports itself alive, and has
    changed nothing else: no thread has been started. *)
Theorem start_listening_again_raises (m : KernelManager) :
  is_listening m = false ->
  KM.thread_of SubClass m <> Initial ->
  KM.start_listening m
  = (Raise (RuntimeError "threads can only be started once"),
     KM.with_is_listening true m)
  /\ KM.is_alive (KM.with_is_listening true m) = true
  /\ effects (KM.with_is_listening true m) = effects m
  /\ (forall k, KM.thread_of k (KM.with_is_listening true m)
                = KM.thread_of k m).
Proof.
  intros Hl Ht.
  destruct m as [listening kernel [[t1 a1 so1 lo1 io1]|] c2 c3 eff];
    km_observe; try congruence; subst listening;
    destruct t1; try congruence;
    (split; [reflexivity|]); (split; [reflexivity|]);
    (split; [reflexivity|]); intros []; reflexivity.
Qed.

(** X21. One round of listening. In a state the manager gets into
    through its methods, not listening and with no channel thread started,
    [start_listening] returns. A [stop_listening] that follows at once
    raises the [AttributeError] of a loop that is still [None]. Once the
    threads of the two socket channels have executed [run],
    [stop_listening] returns; afterwards the manager is not listening,
    every thread has terminated, the effects are the three threads started
    and then the three channels stopped, each in the order broadcast,
    request, reverse-request, and the addresses and the kernel handle are
    as before; a further [start_listening] raises. *)
Theorem one_round_of_listening (m : KernelManager) :
  reachable m ->
  is_listening m = false ->
  (forall k, KM.thread_of k m = Initial) ->
  exists m1 m2,
    KM.start_listening m = (Return tt, m1)
    /\ fst (KM.stop_listening m1) = Raise (AttributeError "stop")
    /\ KM.stop_listening
         (KM.step launch_kernel (KM.thread_runs XReqClass)
            (KM.step launch_kernel (KM.thread_runs SubClass) m1))
       = (Return tt, m2)
    /\ is_listening m2 = false
    /\ (forall k, KM.thread_of k m2 = Finished)
    /\ effects m2
       = effects m ++ [thread_started SubClass; thread_started XReqClass;
                       thread_started RepClass; channel_stopped SubClass;
                       channel_stopped XReqClass; channel_stopped RepClass]
    /\ (forall k, KM.address_of k m2 = KM.address_of k m)
    /\ _kernel m2 = _kernel m
    /\ fst (KM.start_listening m2)
       = Raise (RuntimeError "threads can only be started once").
Proof.
  intros Hr Hl Ht. apply reachable_consistent in Hr.
  pose proof (Ht SubClass) as H1. pose proof (Ht XReqClass) as H2.
  pose proof (Ht RepClass) as H3. clear Ht.
  destruct m as [listening kernel [[t1 a1 so1 [l1|] io1]|]
                   [[t2 a2 so2 [l2|] io2]|] [[t3 a3 so3 [l3|] io3]|] eff];
    unfold KM.thread_of in H1, H2, H3; simpl in Hl, H1, H2, H3; subst;
    simpl in Hr; rewrite ?andb_false_r in Hr; try discriminate Hr; clear Hr;
    km_run; simpl; eexists; eexists; (split; [reflexivity|]); simpl;
    (split; [reflexivity|]); (split; [reflexivity|]); simpl;
    rewrite <- ?app_assoc; simpl;
    (split; [reflexivity|]); (split; [intros []; reflexivity|]);
    (split; [reflexivity|]); (split; [intros []; reflexivity|]);
    (split; reflexivity).
Qed.
End ManagerLife.

(** Witnesses of X16 and X19 to X21, on managers got from one nothing has
    been done with. *)
Lemma start_kernel_while_a_thread_is_alive_witness :
  let m := snd (KM.start_listening KM.fresh) in
  exists m',
    KM.start_kernel KM.example_launch m
    = (Raise (RuntimeError "Cannot set address on a running channel!"), m')
    /\ effects m' = effects m ++ [launched 0 0]
    /\ _kernel m' = Some {| pid := 4242 |}
    /\ (forall k, KM.address_of k m' = KM.address_of k m).
Proof.
  intros m.
  destruct (start_kernel_while_a_thread_is_alive KM.example_launch m
              {| pid := 4242 |} 5555 5556 eq_refl eq_refl eq_refl)
    as [Halive _].
  apply Halive. reflexivity.
Defined.

Lemma manager_threads_go_together_witness :
  let m := KM.step KM.example_launch KM.call_stop_listening
             (KM.step KM.example_launch KM.call_start_listening KM.fresh) in
  KM.thread_of RepClass m <> Initial /\ KM.loop_of RepClass m = None.
Proof.
  intros m.
  destruct (manager_threads_go_together KM.example_launch m)
    as ([Hnone|Hall] & _ & Hrep & _).
  - do 2 apply KM.reachable_step. apply KM.reachable_fresh.
  - specialize (Hnone SubClass). vm_compute in Hnone. discriminate Hnone.
  - split; [apply Hall|exact Hrep].
Defined.

Lemma start_listening_again_raises_witness :
  let m := KM.step KM.example_launch KM.call_stop_listening
             (KM.step KM.example_launch KM.call_start_listening KM.fresh) in
  KM.start_listening m
  = (Raise (RuntimeError "threads can only be started once"),
     KM.with_is_listening true m).
Proof.
  intros m.
  apply (start_listening_again_raises m).
  - vm_compute. reflexivity.
  - vm_compute. discriminate.
Defined.

Lemma one_round_of_listening_witness :
  exists m1 m2,
    KM.start_listening KM.fresh = (Return tt, m1)
    /\ KM.stop_listening
         (KM.step KM.example_launch (KM.thread_runs XReqClass)
            (KM.step KM.example_launch (KM.thread_runs SubClass) m1))
       = (Return tt, m2)
    /\ is_listening m2 = false
    /\ (forall k, KM.thread_of k m2 = Finished).
Proof.
  destruct (one_round_of_listening KM.example_launch KM.fresh)
    as (m1 & m2 & E1 & _ & E2 & Hl & Ht & _).
  - apply KM.reachable_fresh.
  - reflexivity.
  - intros []; reflexivity.
  - exists m1, m2. auto.
Defined.

(** ** The receive loop ends *)

Lemma recv_loop_comes_back (H : Type)
    (call_handlers : Envelope -> M H unit) :
  (forall msg h, fst (call_handlers msg h) <> Blocked) ->
  forall (rounds : nat) (s : Sub.SubSocketChannel H),
    (length (Sub.available H s) < rounds)%nat ->
    fst (Sub.recv_loop H call_handlers rounds s) <> Blocked.
Proof.
  intros Hnb. induction rounds as [|rounds IH]; intros s Hlt; [lia|].
  rewrite recv_loop_step.
  destruct (Sub.on_base H recv_json_noblock s) as [[msg|e|] s1] eqn:E.
  - apply recv_returned in E as (Hav & _ & _).
    unfold bind.
    pose proof (invoke_available H call_handlers msg s1) as Hav2.
    assert (Hinv : fst (Sub.invoke_call_handlers H call_handlers msg s1)
                   <> Blocked).
    { unfold Sub.invoke_call_handlers, bind, modify, zoom. simpl.
      specialize (Hnb msg (Sub.handlers s1)).
      destruct (call_handlers msg (Sub.handlers s1)). exact Hnb. }
    destruct (Sub.invoke_call_handlers H call_handlers msg s1) as [o s2].
    simpl in Hav2, Hinv. destruct o; simpl; try discriminate; try congruence.
    apply IH. rewrite Hav2. rewrite Hav in Hlt. simpl in Hlt. lia.
  - destruct e; simpl; discriminate.
  - revert E. unfold Sub.on_base, zoom, recv_json_noblock, on_socket.
    destruct s as [[t a [[p w]|] lo io] h d]; simpl;
      [destruct p as [|[m|e] p]|]; discriminate.
Qed.

(** X22. The [while True] loop of the broadcast channel's [_handle_recv]
    ends by itself and gives a result. Whatever waits on the socket, when
    no invocation of [call_handlers] hangs, [_handle_recv] comes back, by
    returning or by raising; it needs no more rounds than one more than
    the entries waiting, and rounds beyond that change nothing. *)
Theorem receive_loop_ends_by_itself (H : Type)
    (call_handlers : Envelope -> M H unit) (s : Sub.SubSocketChannel H)
    (rounds : nat) :
  (forall msg h, fst (call_handlers msg h) <> Blocked) ->
  (length (Sub.available H s) < rounds)%nat ->
  fst (Sub._handle_recv H call_handlers s) <> Blocked
  /\ Sub.recv_loop H call_handlers rounds s
     = Sub._handle_recv H call_handlers s.
Proof.
  intros Hnb Hr. split.
  - unfold Sub._handle_recv. apply recv_loop_comes_back; [exact Hnb|lia].
  - apply (recv_loop_enough H call_handlers rounds s Hr).
Qed.

(** Witness of X22: two frames waiting and a handler that counts. *)
Lemma receive_loop_ends_by_itself_witness :
  let frame n :=
    {| header := {| msg_id := PyInt n; msg_type := "stream" |};
       content := ∅ |} in
  let s := {| Sub.base :=
                with_socket
                  (Some {| pending := [inl (frame 1); inl (frame 2)];
                           wire := [] |})
                  (Loop.setup (Z.lor POLLIN POLLERR) KM.new_channel);
              Sub.handlers := O; Sub.dispatched := [] |} in
  fst (Sub._handle_recv nat (fun _ => modify S) s) <> Blocked
  /\ Sub.recv_loop nat (fun _ => modify S) 10 s
     = Sub._handle_recv nat (fun _ => modify S) s.
Proof.
  intros frame s.
  apply (receive_loop_ends_by_itself nat (fun _ => modify S) s 10).
  - intros msg h. discriminate.
  - simpl. lia.
Defined.
